(** * Recovery metrics of the decompiler evaluation (src/metrics.py)

    A shallow embedding of the metric computation engine: the level
    normaliser, the base filters, the selection layer and the aggregation
    functions, together with the [Metric] wrapper objects.

    Conventions of the embedding.
    - Python [int] is [Z].  A Python number that may be an [int] or a [float]
      (a mean, a ratio, a normalised score) is an exact rational [Q], kept in
      reduced form ([Qred]); Python's true division of two integers is the
      correctly rounded value of the exact quotient, and rounding to nearest
      is monotone and fixes 0 and 1, so the order facts proved on the exact
      quotient are those of the rounded one.
    - [None] is [option]'s [None]; a raised exception is [Raise].
    - List comprehensions are [map] and [filter].
    - The modules [lang] and [compare_unoptimized] are imported by the source
      but are not part of it: their constants are the fields of [Constants],
      their comparison object is the interface [ProgramInfoCompare2]. *)

From Stdlib Require Import List ZArith QArith Qreduction Bool String Lia.
From Stdlib Require Import Permutation FinFun.
From Stdlib Require Qcanon.
Import ListNotations.

(** ** Results of Python computations *)

Inductive exn : Type :=
| ZeroDivisionError
| StatisticsError.

Inductive result (A : Type) : Type :=
| Ok (a : A)
| Raise (e : exn).

Arguments Ok {A} a.
Arguments Raise {A} e.

Definition bind {A B : Type} (m : result A) (k : A -> result B) : result B :=
  match m with
  | Ok a => k a
  | Raise e => Raise e
  end.

Notation "x <- m ;; k" := (bind m (fun x => k))
  (at level 61, m at next level, right associativity).

(** [a / b] on Python numbers. *)
Definition truediv (a b : Q) : result Q :=
  if Qeq_bool b 0 then Raise ZeroDivisionError else Ok (Qred (a / b)).

Definition sumZ (xs : list Z) : Z := fold_right Z.add 0%Z xs.

Definition sumQ (xs : list Q) : Q := fold_right Qplus 0 xs.

(** [statistics.mean]: the exact mean, [StatisticsError] on no data. *)
Definition mean (xs : list Q) : result Q :=
  match xs with
  | [] => Raise StatisticsError
  | _ :: _ => Ok (Qred (sumQ xs / inject_Z (Z.of_nat (List.length xs))))
  end.

(** ** Python [range] objects *)

Record range : Type := mkRange {
  r_start : Z;
  r_stop : Z;
  r_step : Z
}.

(** [len(r)]. *)
Definition range_len (r : range) : nat :=
  if (0 <? r_step r)%Z then
    if (r_start r <? r_stop r)%Z
    then Z.to_nat ((r_stop r - r_start r - 1) / r_step r + 1)
    else O
  else if (r_step r <? 0)%Z then
    if (r_stop r <? r_start r)%Z
    then Z.to_nat ((r_start r - r_stop r - 1) / (- r_step r) + 1)
    else O
  else O.

(** [list(r)]: the members of the range, in iteration order. *)
Definition range_elems (r : range) : list Z :=
  map (fun i => (r_start r + Z.of_nat i * r_step r)%Z) (seq 0 (range_len r)).

Fixpoint list_min (xs : list Z) : option Z :=
  match xs with
  | [] => None
  | x :: rest =>
      match list_min rest with
      | None => Some x
      | Some m => Some (Z.min x m)
      end
  end.

Fixpoint list_max (xs : list Z) : option Z :=
  match xs with
  | [] => None
  | x :: rest =>
      match list_max rest with
      | None => Some x
      | Some m => Some (Z.max x m)
      end
  end.

(** A scale as the compare-level taxonomies number their levels: at least
    two levels, evenly spaced upwards from [r_start], the last one being
    [r_stop - r_step] (for a dense numbering, [r_step = 1]). *)
Definition uniform_scale (r : range) : Prop :=
  (0 < r_step r)%Z
  /\ ((r_stop r - r_start r) mod r_step r = 0)%Z
  /\ (r_step r < r_stop r - r_start r)%Z.

(** What is asked of the normalisation [f] of the levels of a scale [r]:
    [None] goes to [None], the least level to 0, the greatest to 1, every
    level between them into [0,1], and a greater level never gets a smaller
    score. *)
Definition normalizes (r : range) (f : option Q -> result (option Q))
    : Prop :=
  f None = Ok None
  /\ exists lo hi : Z,
       list_min (range_elems r) = Some lo
       /\ list_max (range_elems r) = Some hi
       /\ f (Some (inject_Z lo)) = Ok (Some 0)
       /\ f (Some (inject_Z hi)) = Ok (Some 1)
       /\ (forall x, inject_Z lo <= x -> x <= inject_Z hi ->
             exists q, f (Some x) = Ok (Some q) /\ 0 <= q /\ q <= 1)
       /\ (forall x y, x <= y ->
             exists p q, f (Some x) = Ok (Some p)
                         /\ f (Some y) = Ok (Some q) /\ p <= q).

(** ** Constants of the imported modules *)

Class Constants : Type := {
  AddressType_ABSOLUTE : Z;
  AddressType_STACK : Z;
  MetaType_ARRAY : Z;
  VarnodeCompareLevel_NO_MATCH : Z;
  VarnodeCompareLevel_range : range;
  DataTypeCompareLevel_range : range
}.

(** ** The program model, as far as the metrics read it *)

(** The class [Variable] of module [lang]. *)
Record ProgVariable : Type := mkVariable {
  is_param : bool;
  num_locations : nat
}.

(** Modelled from the spec: [Variable.is_single_loc] belongs to module
    [lang], which is not part of the source; the variable "has exactly one
    storage location". *)
Definition is_single_loc (var : ProgVariable) : bool :=
  Nat.eqb (num_locations var) 1.

Record Address : Type := mkAddress {
  get_addrtype : Z;
  get_offset : Z
}.

Record DataType : Type := mkDataType {
  get_metatype : Z;
  get_num_elements : Z;
  num_dimensions : Z
}.

Record Varnode : Type := mkVarnode {
  get_addr : Address;
  get_size : Z;
  get_datatype : DataType;
  get_var : option ProgVariable
}.

Record VarnodeCompare2 : Type := mkVarnodeCompare2 {
  get_left : Varnode;
  get_right : Varnode
}.

Record VarnodeCompareRecord : Type := mkVarnodeCompareRecord {
  get_varnode : Varnode;
  get_compare_level : Z;
  bytes_overlapped : Z;
  get_comparisons : list VarnodeCompare2
}.

Record UnoptimizedFunction : Type := mkUnoptimizedFunction {
  get_name : string
}.

Record UnoptimizedFunctionCompareRecord : Type := mkFunctionCompareRecord {
  get_unoptimized_function : UnoptimizedFunction;
  is_comparison : bool
}.

(** The comparison object [UnoptimizedProgramInfoCompare2], by the methods
    the metrics call on it. *)
Class ProgramInfoCompare2 (C : Type) : Type := {
  flip : C -> C;
  select_function_compare_records : C -> list UnoptimizedFunctionCompareRecord;
  select_varnode_compare_records :
    C -> (VarnodeCompareRecord -> bool) -> list VarnodeCompareRecord;
  select_primitive_varnode_compare_records :
    C -> (VarnodeCompareRecord -> bool) -> list VarnodeCompareRecord;
  select_varnode_comparisons :
    C -> (VarnodeCompareRecord -> bool) -> (VarnodeCompare2 -> bool) ->
    list VarnodeCompare2
}.

(** ** Utility functions *)

Definition normalize_range (r : range) (x : option Q) : result (option Q) :=
  match x with
  | None => Ok None
  | Some v =>
      q <- truediv (v - inject_Z (r_start r))
                   (inject_Z (r_stop r - r_step r - r_start r)) ;;
      Ok (Some q)
  end.

(** The quotient computed by the inner function of [normalize_range]. *)
Definition normalized (r : range) (x : Q) : Q :=
  Qred ((x - inject_Z (r_start r))
        / inject_Z (r_stop r - r_step r - r_start r)).

Definition varnode_compare_level_to_normalized_score `{Constants}
    (lvl : option Q) : result (option Q) :=
  normalize_range VarnodeCompareLevel_range lvl.

Definition datatype_compare_level_to_normalized_score `{Constants}
    (lvl : option Q) : result (option Q) :=
  normalize_range DataTypeCompareLevel_range lvl.

Definition function_compare_record_compared_filter
    (fn_cmp : UnoptimizedFunctionCompareRecord) : bool :=
  is_comparison fn_cmp.

Definition variable_base_filter (var : ProgVariable) : bool :=
  negb (is_param var) && is_single_loc var.

Definition varnode_base_filter `{Constants} (varnode : Varnode) : bool :=
  let parent_var := get_var varnode in
  existsb (Z.eqb (get_addrtype (get_addr varnode)))
          [AddressType_ABSOLUTE; AddressType_STACK]
  && match parent_var with
     | Some v => variable_base_filter v
     | None => true
     end.

Definition varnode_compare_record_base_filter `{Constants}
    (record : VarnodeCompareRecord) : bool :=
  varnode_base_filter (get_varnode record).

(** ** Selection layer and aggregation functions *)

Section Metrics.

Context {K : Constants} {C : Type} {PC : ProgramInfoCompare2 C}.

(** Memoised in the source ([lru_cache]); the cache of a function that reads
    an unchanging comparison object returns what the call would compute. *)
Definition select_comparable_varnode_compare_records
    (cmp : C) (primitive : bool) : list VarnodeCompareRecord :=
  let method :=
    if primitive then select_primitive_varnode_compare_records cmp
    else select_varnode_compare_records cmp in
  method varnode_compare_record_base_filter.

Definition select_comparable_varnodes
    (cmp : C) (left primitive : bool) : list Varnode :=
  let _cmp := if left then cmp else flip cmp in
  map get_varnode (select_comparable_varnode_compare_records _cmp primitive).

Definition varnodes_truth (cmp : C) (primitive : bool) : list Varnode :=
  select_comparable_varnodes cmp true primitive.

Definition varnodes_decomp (cmp : C) (primitive : bool) : list Varnode :=
  select_comparable_varnodes cmp false primitive.

(** *** Bytes *)

Definition bytes_truth (cmp : C) : Z :=
  sumZ (map get_size (varnodes_truth cmp false)).

Definition bytes_decomp (cmp : C) : Z :=
  sumZ (map get_size (varnodes_decomp cmp false)).

Definition bytes_found (cmp : C) : Z :=
  let found :=
    sumZ (map bytes_overlapped
              (select_comparable_varnode_compare_records cmp false)) in
  Z.min found (bytes_truth cmp).

Definition bytes_missed (cmp : C) : Z :=
  Z.max (bytes_truth cmp - bytes_found cmp) 0.

Definition bytes_extraneous (cmp : C) : Z :=
  (bytes_decomp cmp - bytes_found cmp)%Z.

(** The compute function of the metric "Bytes recovery fraction" of
    [make_metrics]: [lambda cmp: bytes_found(cmp) / bytes_truth(cmp)]. *)
Definition bytes_recovery_fraction (cmp : C) : result Q :=
  truediv (inject_Z (bytes_found cmp)) (inject_Z (bytes_truth cmp)).

(** *** Functions *)

Definition functions_found (cmp : C) : list UnoptimizedFunction :=
  map get_unoptimized_function
      (filter is_comparison (select_function_compare_records cmp)).

Definition functions_missed (cmp : C) : list UnoptimizedFunction :=
  map get_unoptimized_function
      (filter (fun record => negb (is_comparison record))
              (select_function_compare_records cmp)).

Definition functions_extraneous (cmp : C) : list UnoptimizedFunction :=
  functions_missed (flip cmp).

(** *** Varnodes *)

Definition _varnode_compare_records_match_levels
    (varnode_cmp_records : list VarnodeCompareRecord) (levels : list Z)
    : list VarnodeCompareRecord :=
  filter (fun record => existsb (Z.eqb (get_compare_level record)) levels)
         varnode_cmp_records.

Definition _varnode_compare_records_matched_at_above_level
    (varnode_cmp_records : list VarnodeCompareRecord) (level : Z)
    : list VarnodeCompareRecord :=
  filter (fun record => (level <=? get_compare_level record)%Z)
         varnode_cmp_records.

Definition _varnode_compare_records_matched_at_level
    (varnode_cmp_records : list VarnodeCompareRecord) (level : Z)
    : list VarnodeCompareRecord :=
  filter (fun record => (get_compare_level record =? level)%Z)
         varnode_cmp_records.

Definition varnode_compare_records_match_levels
    (cmp : C) (levels : list Z) (primitive : bool)
    : list VarnodeCompareRecord :=
  _varnode_compare_records_match_levels
    (select_comparable_varnode_compare_records cmp primitive) levels.

Definition varnode_compare_records_matched_at_above_level
    (cmp : C) (level : Z) (primitive : bool) : list VarnodeCompareRecord :=
  _varnode_compare_records_matched_at_above_level
    (select_comparable_varnode_compare_records cmp primitive) level.

Definition varnode_compare_records_matched_at_level
    (cmp : C) (level : Z) (primitive : bool) : list VarnodeCompareRecord :=
  _varnode_compare_records_matched_at_level
    (select_comparable_varnode_compare_records cmp primitive) level.

Definition varnode_compare_records_missed_
    (varnode_cmp_records : list VarnodeCompareRecord)
    : list VarnodeCompareRecord :=
  _varnode_compare_records_match_levels
    varnode_cmp_records [VarnodeCompareLevel_NO_MATCH].

Definition varnodes_missed_
    (varnode_cmp_records : list VarnodeCompareRecord) : list Varnode :=
  map get_varnode (varnode_compare_records_missed_ varnode_cmp_records).

Definition varnodes_missed (cmp : C) (primitive : bool) : list Varnode :=
  map get_varnode
      (varnode_compare_records_match_levels
         cmp [VarnodeCompareLevel_NO_MATCH] primitive).

Definition varnodes_extraneous (cmp : C) (primitive : bool) : list Varnode :=
  varnodes_missed (flip cmp) primitive.

(** The counts behind the metrics "Varnodes matched @ level ..." of
    [make_metrics], one for each [compare_level] of
    [VarnodeCompareLevel.range()], in the order of the loop. *)
Definition varnodes_matched_at_level_counts
    (cmp : C) (primitive : bool) : list nat :=
  map (fun compare_level =>
         List.length
           (varnode_compare_records_matched_at_level
              cmp compare_level primitive))
      (range_elems VarnodeCompareLevel_range).

Definition _varnodes_avg_compare_level
    (varnode_cmp_records : list VarnodeCompareRecord) : result (option Q) :=
  let compare_levels := map get_compare_level varnode_cmp_records in
  if (0 <? List.length compare_levels)%nat
  then m <- mean (map inject_Z compare_levels) ;; Ok (Some m)
  else Ok None.

Definition varnodes_avg_compare_level
    (cmp : C) (primitive : bool) : result (option Q) :=
  _varnodes_avg_compare_level
    (select_comparable_varnode_compare_records cmp primitive).

Definition varnodes_avg_compare_score
    (cmp : C) (primitive : bool) : result (option Q) :=
  lvl <- varnodes_avg_compare_level cmp primitive ;;
  varnode_compare_level_to_normalized_score lvl.

(** *** Varnodes of one metatype *)

Definition _select_comparable_varnodes_metatype
    (cmp : C) (metatype : Z) (left primitive : bool) : list Varnode :=
  filter (fun varnode => (get_metatype (get_datatype varnode) =? metatype)%Z)
         (select_comparable_varnodes cmp left primitive).

Definition _select_comparable_varnode_compare_records_metatype
    (cmp : C) (metatype : Z) (primitive : bool) : list VarnodeCompareRecord :=
  filter (fun record =>
            (get_metatype (get_datatype (get_varnode record)) =? metatype)%Z)
         (select_comparable_varnode_compare_records cmp primitive).

Definition varnodes_truth_metatype
    (cmp : C) (metatype : Z) (primitive : bool) : list Varnode :=
  _select_comparable_varnodes_metatype cmp metatype true primitive.

Definition varnodes_decomp_metatype
    (cmp : C) (metatype : Z) (primitive : bool) : list Varnode :=
  _select_comparable_varnodes_metatype cmp metatype false primitive.

Definition varnodes_missed_metatype
    (cmp : C) (metatype : Z) (primitive : bool) : list Varnode :=
  varnodes_missed_
    (_select_comparable_varnode_compare_records_metatype
       cmp metatype primitive).

Definition varnodes_avg_compare_level_metatype
    (cmp : C) (metatype : Z) (primitive : bool) : result (option Q) :=
  _varnodes_avg_compare_level
    (_select_comparable_varnode_compare_records_metatype
       cmp metatype primitive).

Definition varnodes_avg_compare_score_metatype
    (cmp : C) (metatype : Z) (primitive : bool) : result (option Q) :=
  lvl <- varnodes_avg_compare_level_metatype cmp metatype primitive ;;
  varnode_compare_level_to_normalized_score lvl.

(** *** Arrays *)

Fixpoint mapM {A B : Type} (f : A -> result B) (xs : list A)
    : result (list B) :=
  match xs with
  | [] => Ok []
  | x :: rest => y <- f x ;; ys <- mapM f rest ;; Ok (y :: ys)
  end.

Definition array_comparisons (cmp : C) : list VarnodeCompare2 :=
  select_varnode_comparisons cmp varnode_compare_record_base_filter
    (fun record =>
       (get_metatype (get_datatype (get_left record)) =? MetaType_ARRAY)%Z
       && (get_metatype (get_datatype (get_right record)) =? MetaType_ARRAY)%Z).

Definition _summarize_array_comparisons
    (cmps : list VarnodeCompare2) (f : VarnodeCompare2 -> result Q)
    (stat : list Q -> result Q) : result (option Q) :=
  match cmps with
  | [] => Ok None
  | _ :: _ => vals <- mapM f cmps ;; s <- stat vals ;; Ok (Some s)
  end.

Definition mean_over_array_comparisons
    (cmp : C) (f : VarnodeCompare2 -> result Q) : result (option Q) :=
  _summarize_array_comparisons (array_comparisons cmp) f mean.

Definition array_elements_diff (cmp : VarnodeCompare2) : Z :=
  (get_num_elements (get_datatype (get_left cmp))
   - get_num_elements (get_datatype (get_right cmp)))%Z.

Definition array_elements_error (cmp : VarnodeCompare2) : Z :=
  Z.abs (array_elements_diff cmp).

Definition array_elements_error_ratio (cmp : VarnodeCompare2) : result Q :=
  truediv (inject_Z (array_elements_error cmp))
          (inject_Z (get_num_elements (get_datatype (get_left cmp)))).

Definition array_size_diff (cmp : VarnodeCompare2) : Z :=
  (get_size (get_left cmp) - get_size (get_right cmp))%Z.

Definition array_size_error (cmp : VarnodeCompare2) : Z :=
  Z.abs (array_size_diff cmp).

Definition array_size_error_ratio (cmp : VarnodeCompare2) : result Q :=
  truediv (inject_Z (array_size_error cmp))
          (inject_Z (get_size (get_left cmp))).

Definition _array_dimension_match_ratio (cmps : list VarnodeCompare2)
    : result (option Q) :=
  let dim_matches :=
    fold_left
      (fun dim_matches cmp =>
         let left_dims := num_dimensions (get_datatype (get_left cmp)) in
         let right_dims := num_dimensions (get_datatype (get_right cmp)) in
         if (left_dims =? right_dims)%Z then (dim_matches + 1)%Z
         else dim_matches)
      cmps 0%Z in
  if (0 <? List.length cmps)%nat
  then q <- truediv (inject_Z dim_matches)
                    (inject_Z (Z.of_nat (List.length cmps))) ;;
       Ok (Some q)
  else Ok None.

Definition array_dimension_match_ratio (cmp : C) : result (option Q) :=
  _array_dimension_match_ratio (array_comparisons cmp).

(** The upstream contract on [flip]: the comparison flipped twice answers
    every selection as the comparison itself. *)
Definition observably_equal (c1 c2 : C) : Prop :=
  select_function_compare_records c1 = select_function_compare_records c2
  /\ (forall cond,
        select_varnode_compare_records c1 cond
        = select_varnode_compare_records c2 cond)
  /\ (forall cond,
        select_primitive_varnode_compare_records c1 cond
        = select_primitive_varnode_compare_records c2 cond)
  /\ (forall cond cond2,
        select_varnode_comparisons c1 cond cond2
        = select_varnode_comparisons c2 cond cond2).

End Metrics.

(** ** A stored comparison object *)

(** Modelled from the spec: the class [UnoptimizedProgramInfoCompare2] of
    module [compare_unoptimized], which is not part of the source.  The
    comparison holds the compare records of both orientations; [flip] swaps
    left and right, and each selector returns the records that satisfy the
    given conditions. *)
Record StoredCompare : Type := mkStoredCompare {
  function_records : list UnoptimizedFunctionCompareRecord;
  varnode_records : list VarnodeCompareRecord;
  primitive_varnode_records : list VarnodeCompareRecord;
  flipped_function_records : list UnoptimizedFunctionCompareRecord;
  flipped_varnode_records : list VarnodeCompareRecord;
  flipped_primitive_varnode_records : list VarnodeCompareRecord
}.

Definition StoredCompare_flip (c : StoredCompare) : StoredCompare :=
  {| function_records := flipped_function_records c;
     varnode_records := flipped_varnode_records c;
     primitive_varnode_records := flipped_primitive_varnode_records c;
     flipped_function_records := function_records c;
     flipped_varnode_records := varnode_records c;
     flipped_primitive_varnode_records := primitive_varnode_records c |}.

#[export] Instance StoredCompare_ProgramInfoCompare2
    : ProgramInfoCompare2 StoredCompare := {
  flip := StoredCompare_flip;
  select_function_compare_records := function_records;
  select_varnode_compare_records c cond := filter cond (varnode_records c);
  select_primitive_varnode_compare_records c cond :=
    filter cond (primitive_varnode_records c);
  select_varnode_comparisons c cond cond2 :=
    flat_map (fun record => filter cond2 (get_comparisons record))
             (filter cond (varnode_records c))
}.

(** ** Metric objects *)

Module MetricObjects.

Section Objects.

(** The callables stored in a metric, and Python's [hash] on them. *)
Variable Callable : Type.
Variable hash : Callable -> Z.

(** The instance attributes set by [Metric.__init__]. *)
Record Metric : Type := mkMetric {
  display_name : string;
  compute : Callable
}.

(** The [Metric] objects alive, in order of creation; an object is referred
    to by its position, which is its identity. *)
Definition heap : Type := list Metric.
Definition ref : Type := nat.

(** [Metric(display_name, compute)]: a new object. *)
Definition Metric_new (h : heap) (name : string) (f : Callable)
    : heap * ref :=
  (h ++ [mkMetric name f], List.length h).

Definition get_display_name (h : heap) (self : ref) : option string :=
  option_map display_name (nth_error h self).

Definition get_compute_function (h : heap) (self : ref) : option Callable :=
  option_map compute (nth_error h self).

(** [Metric.__hash__]. *)
Definition Metric_hash (h : heap) (self : ref) : option Z :=
  option_map (fun m => hash (compute m)) (nth_error h self).

(** [==] on two [Metric] objects.  The class defines [__hash__] and no
    [__eq__], so the comparison is the one inherited from [object]:
    identity. *)
Definition Metric_eq (self other : ref) : bool :=
  Nat.eqb self other.

End Objects.

Arguments mkMetric {Callable} display_name compute.
Arguments display_name {Callable} m.
Arguments compute {Callable} m.
Arguments Metric_new {Callable} h name f.
Arguments get_display_name {Callable} h self.
Arguments get_compute_function {Callable} h self.
Arguments Metric_hash {Callable} hash h self.

End MetricObjects.

(** ** Concrete comparisons

    The scenarios of the specification, built on the stored comparison
    object, with one setting of the constants of the imported modules. *)

Module Scenario.

#[export] Instance constants : Constants := {
  AddressType_ABSOLUTE := 0;
  AddressType_STACK := 1;
  MetaType_ARRAY := 3;
  VarnodeCompareLevel_NO_MATCH := 0;
  VarnodeCompareLevel_range := mkRange 0 5 1;
  DataTypeCompareLevel_range := mkRange 0 4 1
}.

Definition local_var : ProgVariable := mkVariable false 1.

Definition int_type : DataType := mkDataType 0 0 0.

Definition array_type (num_elements : Z) : DataType :=
  mkDataType 3 num_elements 1.

Definition stack_varnode (offset size : Z) (dt : DataType) : Varnode :=
  mkVarnode (mkAddress 1 offset) size dt (Some local_var).

Definition fn (name : string) : UnoptimizedFunction :=
  mkUnoptimizedFunction name.

(** No function and no varnode on either side. *)
Definition empty_compare : StoredCompare :=
  mkStoredCompare [] [] [] [] [] [].

(** Two eligible ground-truth varnodes of 4 and 8 bytes, overlapped on 4
    bytes each; five ground-truth functions, three of them matched; one
    recovered function without a ground-truth counterpart. *)
Definition sample_compare : StoredCompare :=
  let a := stack_varnode (-8) 4 int_type in
  let b := stack_varnode (-16) 8 int_type in
  let a' := stack_varnode (-8) 4 int_type in
  let b' := stack_varnode (-16) 4 int_type in
  let records :=
    [ mkVarnodeCompareRecord a 4 4 [mkVarnodeCompare2 a a'];
      mkVarnodeCompareRecord b 1 4 [mkVarnodeCompare2 b b'] ] in
  let flipped :=
    [ mkVarnodeCompareRecord a' 4 4 [mkVarnodeCompare2 a' a];
      mkVarnodeCompareRecord b' 2 4 [mkVarnodeCompare2 b' b] ] in
  mkStoredCompare
    [ mkFunctionCompareRecord (fn "main") true;
      mkFunctionCompareRecord (fn "init") true;
      mkFunctionCompareRecord (fn "step") true;
      mkFunctionCompareRecord (fn "dump") false;
      mkFunctionCompareRecord (fn "quit") false ]
    records records
    [ mkFunctionCompareRecord (fn "main") true;
      mkFunctionCompareRecord (fn "init") true;
      mkFunctionCompareRecord (fn "step") true;
      mkFunctionCompareRecord (fn "thunk") false ]
    flipped flipped.

(** A ground-truth array of no elements (a zero-length or flexible array)
    compared with a recovered array of three elements. *)
Definition zero_length_pair : VarnodeCompare2 :=
  mkVarnodeCompare2 (stack_varnode (-32) 0 (array_type 0))
                    (stack_varnode (-32) 12 (array_type 3)).

Definition zero_length_compare : StoredCompare :=
  let record :=
    mkVarnodeCompareRecord (get_left zero_length_pair) 1 0
                           [zero_length_pair] in
  mkStoredCompare [] [record] [record] [] [] [].

End Scenario.

(** ** The rest of the imported modules *)

(** Further constants and methods of [lang] and [compare_unoptimized], used
    by the registry of metrics and by the array subtype metrics:
    [get_basetype] is the method of an array datatype,
    [DataTypeCompare2_compare_level left right offset] is
    [DataTypeCompare2(left, right, offset).get_compare_level()]. *)
Class Upstream : Type := {
  MetaType_INT : Z;
  MetaType_FLOAT : Z;
  MetaType_POINTER : Z;
  MetaType_STRUCT : Z;
  MetaType_UNION : Z;
  MetaType_repr : Z -> string;
  VarnodeCompareLevel_to_string : Z -> string;
  DataTypeCompareLevel_MATCH : Z;
  get_basetype : DataType -> DataType;
  DataTypeCompare2_compare_level : DataType -> DataType -> Z -> Z
}.

(** The functions of the two programs of a comparison:
    [list(cmp.get_left().get_unoptimized_functions().values())] and the same
    on [get_right()]. *)
Class ProgramInfoAccess (C : Type) : Type := {
  left_unoptimized_functions : C -> list UnoptimizedFunction;
  right_unoptimized_functions : C -> list UnoptimizedFunction
}.

Record DataTypeCompare2 : Type := mkDataTypeCompare2 {
  dtc_left : DataType;
  dtc_right : DataType;
  dtc_offset : Z
}.

Definition DataTypeCompare2_get_compare_level `{Upstream}
    (cmp : DataTypeCompare2) : Z :=
  DataTypeCompare2_compare_level (dtc_left cmp) (dtc_right cmp)
                                 (dtc_offset cmp).

(** ** Further aggregation functions *)

Section MoreMetrics.

Context {K : Constants} {U : Upstream} {C : Type}
        {PC : ProgramInfoCompare2 C} {PA : ProgramInfoAccess C}.

Definition select_base_varnode_compare_records
    (cmp : C) (primitive : bool) : list VarnodeCompareRecord :=
  let method :=
    if primitive then select_primitive_varnode_compare_records cmp
    else select_varnode_compare_records cmp in
  method varnode_compare_record_base_filter.

Definition functions_truth (cmp : C) : list UnoptimizedFunction :=
  left_unoptimized_functions cmp.

Definition functions_decomp (cmp : C) : list UnoptimizedFunction :=
  right_unoptimized_functions cmp.

(** The compute function of the metric "Functions recovery fraction":
    [lambda cmp: len(functions_found(cmp)) / len(functions_truth(cmp))]. *)
Definition functions_recovery_fraction (cmp : C) : result Q :=
  truediv (inject_Z (Z.of_nat (List.length (functions_found cmp))))
          (inject_Z (Z.of_nat (List.length (functions_truth cmp)))).

(** The compute function of the per-metatype metrics "... matched @ level":
    the records matched at the level whose varnode has the metatype. *)
Definition varnode_compare_records_matched_at_level_metatype
    (cmp : C) (metatype compare_level : Z) (primitive : bool)
    : list VarnodeCompareRecord :=
  filter (fun record =>
            (get_metatype (get_datatype (get_varnode record)) =? metatype)%Z)
         (varnode_compare_records_matched_at_level cmp compare_level primitive).

Definition array_varnode_compare_records_truth
    (cmp : C) : list VarnodeCompareRecord :=
  filter (fun record =>
            (get_metatype (get_datatype (get_varnode record))
             =? MetaType_ARRAY)%Z)
         (select_comparable_varnode_compare_records cmp false).

Definition array_varnode_compare_records_inferred
    (cmp : C) : list VarnodeCompareRecord :=
  filter (fun record =>
            existsb (fun cmp2 =>
                       (get_metatype (get_datatype (get_right cmp2))
                        =? MetaType_ARRAY)%Z)
                    (get_comparisons record))
         (array_varnode_compare_records_truth cmp).

(** The compute function of the metric "Array varnodes inferred as array
    fraction". *)
Definition array_inferred_fraction (cmp : C) : result Q :=
  truediv
    (inject_Z (Z.of_nat (List.length (array_varnode_compare_records_inferred cmp))))
    (inject_Z (Z.of_nat (List.length (array_varnode_compare_records_truth cmp)))).

Definition _subtype_comparisons (cmps : list VarnodeCompare2)
    : list DataTypeCompare2 :=
  let subtype_comparison (cmp : VarnodeCompare2) :=
    let left_subtype := get_basetype (get_datatype (get_left cmp)) in
    let right_subtype := get_basetype (get_datatype (get_right cmp)) in
    mkDataTypeCompare2 left_subtype right_subtype 0 in
  map subtype_comparison cmps.

Definition _array_subtype_match_ratio
    (cmps : list VarnodeCompare2) (level : Z) : result Q :=
  let subtype_matches :=
    List.length
      (filter (fun cmp => (level <=? DataTypeCompare2_get_compare_level cmp)%Z)
              (_subtype_comparisons cmps)) in
  truediv (inject_Z (Z.of_nat subtype_matches))
          (inject_Z (Z.of_nat (List.length cmps))).

Definition array_subtype_match_ratio (cmp : C) (level : Z) : result Q :=
  _array_subtype_match_ratio (array_comparisons cmp) level.

Definition _array_subtype_avg_compare_level (cmps : list VarnodeCompare2)
    : result (option Q) :=
  match cmps with
  | [] => Ok None
  | _ :: _ =>
      m <- mean (map (fun cmp2 =>
                        inject_Z (DataTypeCompare2_get_compare_level cmp2))
                     (_subtype_comparisons cmps)) ;;
      Ok (Some m)
  end.

Definition array_subtype_avg_compare_level (cmp : C) : result (option Q) :=
  _array_subtype_avg_compare_level (array_comparisons cmp).

Definition _array_subtype_avg_compare_score (cmps : list VarnodeCompare2)
    : result (option Q) :=
  lvl <- _array_subtype_avg_compare_level cmps ;;
  datatype_compare_level_to_normalized_score lvl.

Definition array_subtype_avg_compare_score (cmp : C) : result (option Q) :=
  _array_subtype_avg_compare_score (array_comparisons cmp).

End MoreMetrics.

(** ** The registry of metrics *)

(** What a metric computes: an [int], a [float] or [None]. *)
Inductive value : Type :=
| VInt (z : Z)
| VFloat (q : Q)
| VNone.

Definition VLen {A : Type} (xs : list A) : value :=
  VInt (Z.of_nat (List.length xs)).

Definition VOptional (x : option Q) : value :=
  match x with
  | Some q => VFloat q
  | None => VNone
  end.

Module MetricsGroups.

Import MetricObjects.

Section Groups.

Context {C : Type}.

(** The compute function of a metric: from a comparison to a value, or an
    exception. *)
Definition Callable : Type := C -> result value.

(** [Metric.__call__]. *)
Definition Metric_call (self : Metric Callable) (cmp : C) : result value :=
  compute self cmp.

(** [Metric.__str__]. *)
Definition Metric_str (self : Metric Callable) : string :=
  ("<Metric '" ++ display_name self ++ "'>")%string.

(** The attributes of a [MetricsGroup]; a method that changes the object
    returns its new state. *)
Record MetricsGroup : Type := mkMetricsGroup {
  get_name : string;
  get_display_name : string;
  get_metrics : list (Metric Callable)
}.

(** [MetricsGroup(name, display_name, metrics)], [metrics] being [None] by
    default. *)
Definition MetricsGroup_new (name display_name : string)
    (metrics : option (list (Metric Callable))) : MetricsGroup :=
  mkMetricsGroup name display_name
    match metrics with
    | Some ms => ms
    | None => []
    end.

Definition add_metric (self : MetricsGroup) (metric : Metric Callable)
    : MetricsGroup :=
  mkMetricsGroup (get_name self) (get_display_name self)
                 (get_metrics self ++ [metric]).

Definition mk_add_metric (self : MetricsGroup) (display_name : string)
    (compute : Callable) : MetricsGroup :=
  mkMetricsGroup (get_name self) (get_display_name self)
                 (get_metrics self ++ [mkMetric display_name compute]).

Definition compute_results (self : MetricsGroup) (cmp : C)
    : result (list value) :=
  mapM (fun metric => Metric_call metric cmp) (get_metrics self).

(** [MetricsGroup.__str__]. *)
Definition MetricsGroup_str (self : MetricsGroup) : string :=
  ("<MetricsGroup " ++ get_name self ++ ">")%string.

End Groups.

Arguments Callable C : clear implicits.
Arguments MetricsGroup C : clear implicits.

End MetricsGroups.

(** ** [make_metrics]

    The groups are built as in the source, metric after metric; each loop
    over [VarnodeCompareLevel.range()] is a fold that adds one metric for
    each level, its compute function being closed over that level (and over
    the metatype of the enclosing loop). *)

Section MakeMetrics.

Import MetricObjects MetricsGroups.

Context {K : Constants} {U : Upstream} {C : Type}
        {PC : ProgramInfoCompare2 C} {PA : ProgramInfoAccess C}.

(** A compute function that returns a [float], respectively a [float] or
    [None], seen as a compute function of a metric. *)
Definition lift_fraction (f : C -> result Q) : Callable C :=
  fun cmp => q <- f cmp ;; Ok (VFloat q).

Definition lift_optional (f : C -> result (option Q)) : Callable C :=
  fun cmp => x <- f cmp ;; Ok (VOptional x).

Definition make_bytes_group : MetricsGroup C :=
  let bytes_group := MetricsGroup_new "bytes" "Data bytes recovery" None in
  let bytes_group :=
    mk_add_metric bytes_group "Ground truth data bytes"
      (fun cmp => Ok (VInt (bytes_truth cmp))) in
  let bytes_group :=
    mk_add_metric bytes_group "Bytes found"
      (fun cmp => Ok (VInt (bytes_found cmp))) in
  let bytes_group :=
    mk_add_metric bytes_group "Bytes missed"
      (fun cmp => Ok (VInt (bytes_missed cmp))) in
  mk_add_metric bytes_group "Bytes recovery fraction"
    (lift_fraction bytes_recovery_fraction).

Definition make_functions_group : MetricsGroup C :=
  let functions_group :=
    MetricsGroup_new "functions" "Function recovery" None in
  let functions_group :=
    mk_add_metric functions_group "Ground truth functions"
      (fun cmp => Ok (VLen (functions_truth cmp))) in
  let functions_group :=
    mk_add_metric functions_group "Functions found"
      (fun cmp => Ok (VLen (functions_found cmp))) in
  let functions_group :=
    mk_add_metric functions_group "Functions missed"
      (fun cmp => Ok (VLen (functions_missed cmp))) in
  mk_add_metric functions_group "Functions recovery fraction"
    (lift_fraction functions_recovery_fraction).

(** The whole ([primitive = false]) and the decomposed ([primitive = true])
    varnode groups differ by their names and by the granularity only. *)
Definition make_varnodes_group (name display_name : string)
    (primitive : bool) : MetricsGroup C :=
  let varnodes_group := MetricsGroup_new name display_name None in
  let varnodes_group :=
    mk_add_metric varnodes_group "Ground truth varnodes"
      (fun cmp => Ok (VLen (varnodes_truth cmp primitive))) in
  let varnodes_group :=
    fold_left
      (fun group compare_level =>
         let compare_level_str :=
           VarnodeCompareLevel_to_string compare_level in
         mk_add_metric group
           ("Varnodes matched @ level " ++ compare_level_str)%string
           (fun cmp =>
              Ok (VLen (varnode_compare_records_matched_at_level
                          cmp compare_level primitive))))
      (range_elems VarnodeCompareLevel_range) varnodes_group in
  mk_add_metric varnodes_group "Varnode average comparison score"
    (lift_optional (fun cmp => varnodes_avg_compare_score cmp primitive)).

(** A per-metatype varnode group; [name_prefix], [display_name] and the
    title of the per-level metrics are those of the whole or of the
    decomposed loop. *)
Definition make_varnodes_metatype_group
    (name_prefix : string) (display_name : string -> string)
    (level_title : string) (primitive : bool) (metatype : Z)
    : MetricsGroup C :=
  let metatype_str := MetaType_repr metatype in
  let group :=
    MetricsGroup_new (name_prefix ++ metatype_str)%string
                     (display_name metatype_str) None in
  let group :=
    mk_add_metric group "Ground truth varnodes"
      (fun cmp => Ok (VLen (varnodes_truth_metatype cmp metatype primitive))) in
  let group :=
    fold_left
      (fun group compare_level =>
         let compare_level_str :=
           VarnodeCompareLevel_to_string compare_level in
         mk_add_metric group (level_title ++ compare_level_str)%string
           (fun cmp =>
              Ok (VLen (varnode_compare_records_matched_at_level_metatype
                          cmp metatype compare_level primitive))))
      (range_elems VarnodeCompareLevel_range) group in
  mk_add_metric group "Varnode average compare score"
    (lift_optional
       (fun cmp => varnodes_avg_compare_score_metatype cmp metatype primitive)).

Definition make_array_group : MetricsGroup C :=
  let array_group :=
    MetricsGroup_new "array_comparisons" "Array recovery" None in
  let array_group :=
    mk_add_metric array_group "Ground truth array varnodes"
      (fun cmp => Ok (VLen (array_varnode_compare_records_truth cmp))) in
  let array_group :=
    mk_add_metric array_group "Array comparisons"
      (fun cmp => Ok (VLen (array_comparisons cmp))) in
  let array_group :=
    mk_add_metric array_group "Array varnodes inferred as array"
      (fun cmp => Ok (VLen (array_varnode_compare_records_inferred cmp))) in
  let array_group :=
    mk_add_metric array_group "Array varnodes inferred as array fraction"
      (lift_fraction array_inferred_fraction) in
  let array_group :=
    mk_add_metric array_group "Array length (elements) average error"
      (lift_optional
         (fun cmp =>
            mean_over_array_comparisons cmp
              (fun cmp2 => Ok (inject_Z (array_elements_error cmp2))))) in
  let array_group :=
    mk_add_metric array_group "Array length (elements) average error ratio"
      (lift_optional
         (fun cmp =>
            mean_over_array_comparisons cmp array_elements_error_ratio)) in
  let array_group :=
    mk_add_metric array_group "Array size (bytes) average error"
      (lift_optional
         (fun cmp =>
            mean_over_array_comparisons cmp
              (fun cmp2 => Ok (inject_Z (array_size_error cmp2))))) in
  let array_group :=
    mk_add_metric array_group "Array size (bytes) average error ratio"
      (lift_optional
         (fun cmp => mean_over_array_comparisons cmp array_size_error_ratio)) in
  let array_group :=
    mk_add_metric array_group "Array dimension match score"
      (lift_optional array_dimension_match_ratio) in
  mk_add_metric array_group "Array average element type comparison score"
    (lift_optional array_subtype_avg_compare_score).

Definition make_metrics : list (MetricsGroup C) :=
  [make_bytes_group; make_functions_group;
   make_varnodes_group "varnodes" "Varnode recovery" false]
  ++ map (make_varnodes_metatype_group
            "varnodes_metatype_"
            (fun metatype_str =>
               ("Varnode recovery (metatype = " ++ metatype_str ++ ")")%string)
            "Decompiler varnodes matched @ level " false)
         [MetaType_INT; MetaType_FLOAT; MetaType_POINTER; MetaType_ARRAY;
          MetaType_STRUCT; MetaType_UNION]
  ++ [make_varnodes_group "varnodes_decomposed" "Decomposed varnode recovery"
                          true]
  ++ map (make_varnodes_metatype_group
            "varnodes_decomposed_metatype_"
            (fun _ => "Decomposed varnode recovery"%string)
            "Varnodes matched @ level " true)
         [MetaType_INT; MetaType_FLOAT; MetaType_POINTER]
  ++ [make_array_group].

End MakeMetrics.

(** ** Further concrete comparisons *)

Module ScenarioUpstream.

Import Scenario.

#[export] Instance upstream : Upstream := {
  MetaType_INT := 0;
  MetaType_FLOAT := 1;
  MetaType_POINTER := 2;
  MetaType_STRUCT := 4;
  MetaType_UNION := 5;
  MetaType_repr metatype :=
    match metatype with
    | 0%Z => "INT"
    | 1%Z => "FLOAT"
    | 2%Z => "POINTER"
    | 3%Z => "ARRAY"
    | 4%Z => "STRUCT"
    | 5%Z => "UNION"
    | _ => "OTHER"
    end%string;
  VarnodeCompareLevel_to_string level :=
    match level with
    | 0%Z => "NO_MATCH"
    | 1%Z => "OVERLAP"
    | 2%Z => "SUBSET"
    | 3%Z => "ALIGNED"
    | _ => "MATCH"
    end%string;
  DataTypeCompareLevel_MATCH := 3;
  get_basetype _ := int_type;
  DataTypeCompare2_compare_level left right _ :=
    if (get_metatype left =? get_metatype right)%Z then 3%Z else 0%Z
}.

(** Modelled from the spec: the stored comparison holds one function
    compare record for each function of its ground-truth side, matched or
    not. *)
#[export] Instance StoredCompare_ProgramInfoAccess
    : ProgramInfoAccess StoredCompare := {
  left_unoptimized_functions c :=
    map get_unoptimized_function (function_records c);
  right_unoptimized_functions c :=
    map get_unoptimized_function (flipped_function_records c)
}.

(** One ground-truth varnode of 8 bytes overlapped by two recovered
    varnodes, the overlaps counted to 12 bytes. *)
Definition overcounted_compare : StoredCompare :=
  let a := stack_varnode (-8) 8 int_type in
  let a1 := stack_varnode (-8) 8 int_type in
  let a2 := stack_varnode (-4) 4 int_type in
  let records :=
    [ mkVarnodeCompareRecord a 1 12
        [mkVarnodeCompare2 a a1; mkVarnodeCompare2 a a2] ] in
  mkStoredCompare [] records records [] [] [].

(** A ground-truth array of 10 elements and 40 bytes recovered as an array
    of 8 elements and 32 bytes, and a ground-truth array recovered as a
    plain integer. *)
Definition array_pair : VarnodeCompare2 :=
  mkVarnodeCompare2 (stack_varnode (-64) 40 (array_type 10))
                    (stack_varnode (-64) 32 (array_type 8)).

Definition array_compare : StoredCompare :=
  let b := stack_varnode (-96) 16 (array_type 4) in
  let b' := stack_varnode (-96) 4 int_type in
  let records :=
    [ mkVarnodeCompareRecord (get_left array_pair) 2 32 [array_pair];
      mkVarnodeCompareRecord b 1 4 [mkVarnodeCompare2 b b'] ] in
  mkStoredCompare [] records records [] [] [].

End ScenarioUpstream.

(** * Properties *)

(** ** Lists *)

Lemma filter_negb_length {A : Type} (f : A -> bool) (l : list A) :
  (List.length (filter f l)
   + List.length (filter (fun x => negb (f x)) l))%nat = List.length l.
Proof.
  induction l as [| x l IH]; simpl; [reflexivity |].
  destruct (f x); simpl; lia.
Qed.

Lemma filter_negb_Permutation {A : Type} (f : A -> bool) (l : list A) :
  Permutation (filter f l ++ filter (fun x => negb (f x)) l) l.
Proof.
  induction l as [| x l IH]; simpl; [constructor |].
  destruct (f x); simpl.
  - now constructor.
  - symmetry. apply Permutation_cons_app. now symmetry.
Qed.

Lemma list_sum_map_add {A : Type} (f g : A -> nat) (l : list A) :
  list_sum (map (fun x => (f x + g x)%nat) l)
  = (list_sum (map f l) + list_sum (map g l))%nat.
Proof.
  induction l as [| x l IH]; simpl; [reflexivity | rewrite IH; lia].
Qed.

Lemma list_sum_map_zero {A : Type} (l : list A) :
  list_sum (map (fun _ => O) l) = O.
Proof. induction l; simpl; auto. Qed.

(** A level that occurs once in a list of levels is counted once. *)
Lemma list_sum_indicator (x : Z) (levels : list Z) :
  NoDup levels -> In x levels ->
  list_sum (map (fun l => if (x =? l)%Z then 1%nat else O) levels) = 1%nat.
Proof.
  induction 1 as [| y levels Hnotin Hnodup IH]; simpl; [tauto |].
  intros [-> | Hin].
  - rewrite Z.eqb_refl.
    rewrite (map_ext_in _ (fun _ => O)); [now rewrite list_sum_map_zero |].
    intros l Hl. destruct (Z.eqb_spec x l); [congruence | reflexivity].
  - destruct (Z.eqb_spec x y) as [-> | _]; [contradiction |].
    now rewrite IH.
Qed.

Section MetricsProperties.

Context {K : Constants} {C : Type} {PC : ProgramInfoCompare2 C}.

(** ** Functions *)

(** C10: the found and the missed functions split the function compare
    records of a comparison by their matched flag: the two lists together
    are the functions of all records, each taken once, so their lengths add
    up to the number of records. *)
Theorem functions_found_missed_partition (cmp : C) :
  (List.length (functions_found cmp) + List.length (functions_missed cmp))%nat
  = List.length (select_function_compare_records cmp)
  /\ Permutation
       (functions_found cmp ++ functions_missed cmp)
       (map get_unoptimized_function (select_function_compare_records cmp)).
Proof.
  unfold functions_found, functions_missed. split.
  - rewrite !length_map. apply filter_negb_length.
  - rewrite <- map_app. apply Permutation_map, filter_negb_Permutation.
Qed.

(** ** Selection *)

(** C4: the comparable varnodes of the recovered (right) side are the
    varnodes of the comparable compare records of the flipped comparison,
    that is, the ground-truth-side comparable varnodes of the flipped
    comparison. *)
Theorem select_comparable_varnodes_right (cmp : C) (primitive : bool) :
  select_comparable_varnodes cmp false primitive
  = map get_varnode
        (select_comparable_varnode_compare_records (flip cmp) primitive)
  /\ select_comparable_varnodes cmp false primitive
     = select_comparable_varnodes (flip cmp) true primitive.
Proof. split; reflexivity. Qed.

Lemma select_comparable_observably_equal (c1 c2 : C) (primitive : bool) :
  observably_equal c1 c2 ->
  select_comparable_varnode_compare_records c1 primitive
  = select_comparable_varnode_compare_records c2 primitive.
Proof.
  intros (_ & Hwhole & Hprim & _).
  unfold select_comparable_varnode_compare_records.
  destruct primitive; [apply Hprim | apply Hwhole].
Qed.

(** C3: when flipping a comparison twice gives a comparison observably equal
    to it, the missed functions of a comparison are the extraneous functions
    of its flip, and so are the missed varnodes, whole or primitive. *)
Theorem missed_is_extraneous_of_flip (cmp : C) :
  observably_equal (flip (flip cmp)) cmp ->
  functions_missed cmp = functions_extraneous (flip cmp)
  /\ forall primitive,
       varnodes_missed cmp primitive = varnodes_extraneous (flip cmp) primitive.
Proof.
  intros Hflip. split.
  - unfold functions_extraneous, functions_missed.
    destruct Hflip as (Hfun & _). now rewrite Hfun.
  - intros primitive.
    unfold varnodes_extraneous, varnodes_missed,
      varnode_compare_records_match_levels.
    now rewrite (select_comparable_observably_equal _ _ primitive Hflip).
Qed.

(** ** Filters *)

(** C8: a variable passes the base filter exactly when it is not a parameter
    and has one storage location; a varnode passes exactly when its address
    type is absolute or stack and it has no owning variable or one that
    passes the variable filter. *)
Theorem base_filters_spec :
  (forall var : ProgVariable,
     variable_base_filter var = true
     <-> is_param var = false /\ num_locations var = 1%nat)
  /\ (forall varnode : Varnode,
        varnode_base_filter varnode = true
        <-> (get_addrtype (get_addr varnode) = AddressType_ABSOLUTE
             \/ get_addrtype (get_addr varnode) = AddressType_STACK)
            /\ (get_var varnode = None
                \/ exists var, get_var varnode = Some var
                               /\ variable_base_filter var = true)).
Proof.
  split.
  - intros var. unfold variable_base_filter, is_single_loc.
    rewrite andb_true_iff, negb_true_iff, Nat.eqb_eq. tauto.
  - intros varnode. unfold varnode_base_filter. simpl.
    rewrite orb_false_r, andb_true_iff, orb_true_iff, !Z.eqb_eq.
    destruct (get_var varnode) as [var |].
    + split.
      * intros [Haddr Hvar]. split; [exact Haddr |].
        right. now exists var.
      * intros [Haddr [Hnone | (v & Hv & Hvar)]]; [discriminate |].
        injection Hv as <-. now split.
    + split.
      * intros [Haddr _]. split; [exact Haddr | now left].
      * intros [Haddr _]. now split.
Qed.

(** ** Bytes *)

Lemma truediv_positive (a b : Q) :
  0 < b -> truediv a b = Ok (Qred (a / b)).
Proof.
  intros Hb. unfold truediv.
  destruct (Qeq_bool b 0) eqn:E; [| reflexivity].
  apply Qeq_bool_eq in E. rewrite E in Hb.
  now apply Qlt_irrefl in Hb.
Qed.

Lemma truediv_zero (a b : Q) :
  b == 0 -> truediv a b = Raise ZeroDivisionError.
Proof.
  intros Hb. unfold truediv.
  now rewrite (Qeq_eq_bool _ _ Hb).
Qed.

(** A part of a positive whole, divided by the whole, is a fraction between
    0 and 1. *)
Lemma truediv_unit_interval (a b : Z) :
  (0 <= a <= b)%Z -> (0 < b)%Z ->
  exists q, truediv (inject_Z a) (inject_Z b) = Ok q /\ 0 <= q /\ q <= 1.
Proof.
  intros [Ha Hab] Hb.
  assert (HbQ : 0 < inject_Z b) by (now rewrite (Zlt_Qlt 0 b) in Hb).
  exists (Qred (inject_Z a / inject_Z b)).
  split; [now apply truediv_positive |].
  rewrite !Qred_correct. split.
  - apply Qle_shift_div_l; [exact HbQ |].
    rewrite Qmult_0_l. now rewrite (Zle_Qle 0 a) in Ha.
  - apply Qle_shift_div_r; [exact HbQ |].
    rewrite Qmult_1_l. now rewrite (Zle_Qle a b) in Hab.
Qed.

Lemma sumZ_nonneg (xs : list Z) :
  (forall x, In x xs -> (0 <= x)%Z) -> (0 <= sumZ xs)%Z.
Proof.
  induction xs as [| x xs IH]; simpl; intros Hall; [lia |].
  assert (0 <= x)%Z by (apply Hall; now left).
  assert (0 <= sumZ xs)%Z by (apply IH; intros y Hy; apply Hall; now right).
  lia.
Qed.

(** C2: the bytes found never exceed the ground-truth bytes and the bytes
    missed are never negative; when the ground truth has bytes and no
    comparable record reports a negative overlap, the bytes recovery
    fraction is computed and lies between 0 and 1. *)
Theorem bytes_found_bounds (cmp : C) :
  (bytes_found cmp <= bytes_truth cmp)%Z
  /\ (0 <= bytes_missed cmp)%Z
  /\ ((0 < bytes_truth cmp)%Z ->
      (forall record,
         In record (select_comparable_varnode_compare_records cmp false) ->
         (0 <= bytes_overlapped record)%Z) ->
      exists q, bytes_recovery_fraction cmp = Ok q /\ 0 <= q /\ q <= 1).
Proof.
  split; [| split].
  - unfold bytes_found. apply Z.le_min_r.
  - unfold bytes_missed. apply Z.le_max_r.
  - intros Htruth Hoverlap. unfold bytes_recovery_fraction.
    apply truediv_unit_interval; [| exact Htruth].
    split; [| apply Z.le_min_r].
    unfold bytes_found. apply Z.min_glb; [| lia].
    apply sumZ_nonneg. intros x Hx.
    apply in_map_iff in Hx. destruct Hx as (record & <- & Hrecord).
    now apply Hoverlap.
Qed.

(** ** Average compare level and score *)

Lemma _varnodes_avg_compare_level_nil :
  _varnodes_avg_compare_level [] = Ok None.
Proof. reflexivity. Qed.

(** C6: when no comparable varnode compare record is selected, for a
    granularity alone or for a granularity and a metatype, the average
    compare level is [None] and so is the average compare score: nothing is
    raised. *)
Theorem avg_compare_score_none_on_empty (cmp : C) (primitive : bool) :
  (select_comparable_varnode_compare_records cmp primitive = [] ->
   varnodes_avg_compare_level cmp primitive = Ok None
   /\ varnodes_avg_compare_score cmp primitive = Ok None)
  /\ (forall metatype,
        _select_comparable_varnode_compare_records_metatype
          cmp metatype primitive = [] ->
        varnodes_avg_compare_level_metatype cmp metatype primitive = Ok None
        /\ varnodes_avg_compare_score_metatype cmp metatype primitive
           = Ok None).
Proof.
  split.
  - intros Hempty.
    assert (Hlevel : varnodes_avg_compare_level cmp primitive = Ok None).
    { unfold varnodes_avg_compare_level. rewrite Hempty.
      apply _varnodes_avg_compare_level_nil. }
    split; [exact Hlevel |].
    unfold varnodes_avg_compare_score. now rewrite Hlevel.
  - intros metatype Hempty.
    assert (Hlevel :
      varnodes_avg_compare_level_metatype cmp metatype primitive = Ok None).
    { unfold varnodes_avg_compare_level_metatype. rewrite Hempty.
      apply _varnodes_avg_compare_level_nil. }
    split; [exact Hlevel |].
    unfold varnodes_avg_compare_score_metatype. now rewrite Hlevel.
Qed.

(** ** Counts per level *)

Lemma range_elems_NoDup (r : range) : NoDup (range_elems r).
Proof.
  unfold range_elems.
  destruct (Z.eq_dec (r_step r) 0) as [Hzero | Hstep].
  - unfold range_len. rewrite Hzero. simpl. constructor.
  - apply Injective_map_NoDup; [| apply seq_NoDup].
    intros i j Heq. apply Nat2Z.inj. nia.
Qed.

Lemma matched_at_level_counts (records : list VarnodeCompareRecord)
    (levels : list Z) :
  NoDup levels ->
  (forall record, In record records ->
                  In (get_compare_level record) levels) ->
  list_sum
    (map (fun level =>
            List.length
              (_varnode_compare_records_matched_at_level records level))
         levels)
  = List.length records.
Proof.
  intros Hnodup. unfold _varnode_compare_records_matched_at_level.
  induction records as [| record records IH]; intros Hin; simpl.
  - apply list_sum_map_zero.
  - rewrite (map_ext _
      (fun level =>
         ((if (get_compare_level record =? level)%Z then 1 else 0)
          + List.length
              (filter (fun r => (get_compare_level r =? level)%Z) records))%nat)).
    + rewrite list_sum_map_add, IH by (intros r Hr; apply Hin; now right).
      rewrite (list_sum_indicator (get_compare_level record) levels Hnodup
                 (Hin record (or_introl eq_refl))).
      reflexivity.
    + intros level. now destruct (get_compare_level record =? level)%Z.
Qed.

(** C7: when the compare level of every comparable record is a level of the
    varnode compare-level range, the numbers of comparable records matched
    at exactly each level of the range add up to the number of comparable
    records. *)
Theorem matched_at_level_counts_sum (cmp : C) (primitive : bool) :
  (forall record,
     In record (select_comparable_varnode_compare_records cmp primitive) ->
     In (get_compare_level record) (range_elems VarnodeCompareLevel_range)) ->
  list_sum (varnodes_matched_at_level_counts cmp primitive)
  = List.length (select_comparable_varnode_compare_records cmp primitive).
Proof.
  intros Hin.
  unfold varnodes_matched_at_level_counts,
    varnode_compare_records_matched_at_level.
  apply matched_at_level_counts; [apply range_elems_NoDup | exact Hin].
Qed.

(** ** Normalisation of levels *)

Lemma list_min_arith (s st : Z) (n k : nat) :
  (0 < st)%Z ->
  list_min (map (fun i => (s + Z.of_nat i * st)%Z) (seq k (S n)))
  = Some (s + Z.of_nat k * st)%Z.
Proof.
  intros Hst. revert k.
  induction n as [| n IH]; intros k; [reflexivity |].
  change (seq k (S (S n))) with (k :: seq (S k) (S n)).
  cbn [map list_min]. rewrite IH. f_equal. nia.
Qed.

Lemma list_max_arith (s st : Z) (n k : nat) :
  (0 < st)%Z ->
  list_max (map (fun i => (s + Z.of_nat i * st)%Z) (seq k (S n)))
  = Some (s + Z.of_nat (k + n) * st)%Z.
Proof.
  intros Hst. revert k.
  induction n as [| n IH]; intros k.
  - cbn. now rewrite Nat.add_0_r.
  - change (seq k (S (S n))) with (k :: seq (S k) (S n)).
    cbn [map list_max]. rewrite IH. f_equal.
    replace (S k + n)%nat with (k + S n)%nat by lia.
    apply Z.max_r.
    apply Z.add_le_mono_l, Z.mul_le_mono_nonneg_r; lia.
Qed.

Lemma range_len_uniform (r : range) :
  uniform_scale r ->
  exists n : nat,
    range_len r = S (S n)
    /\ (r_stop r - r_start r = Z.of_nat (S (S n)) * r_step r)%Z.
Proof.
  intros (Hstep & Hmod & Hwide).
  set (m := ((r_stop r - r_start r) / r_step r)%Z).
  assert (Hm : (r_stop r - r_start r = r_step r * m)%Z).
  { apply Z_div_exact_full_2; [lia | exact Hmod]. }
  assert (Hm2 : (2 <= m)%Z) by nia.
  assert (Hdiv : ((r_stop r - r_start r - 1) / r_step r = m - 1)%Z).
  { symmetry. apply Z.div_unique with (r := (r_step r - 1)%Z); [lia | nia]. }
  exists (Z.to_nat (m - 2)). split.
  - unfold range_len.
    destruct (Z.ltb_spec 0 (r_step r)); [| lia].
    destruct (Z.ltb_spec (r_start r) (r_stop r)); [| lia].
    rewrite Hdiv. lia.
  - rewrite Hm.
    replace (Z.of_nat (S (S (Z.to_nat (m - 2))))) with m by lia.
    apply Z.mul_comm.
Qed.

Lemma range_elems_uniform_bounds (r : range) :
  uniform_scale r ->
  list_min (range_elems r) = Some (r_start r)
  /\ list_max (range_elems r) = Some (r_stop r - r_step r)%Z.
Proof.
  intros Hr. destruct (range_len_uniform r Hr) as (n & Hlen & Hspan).
  destruct Hr as (Hstep & _). unfold range_elems. rewrite Hlen. split.
  - rewrite list_min_arith by exact Hstep. f_equal. lia.
  - rewrite list_max_arith by exact Hstep. f_equal. nia.
Qed.

Lemma normalize_range_value (r : range) (x : Q) :
  (0 < r_stop r - r_step r - r_start r)%Z ->
  normalize_range r (Some x) = Ok (Some (normalized r x)).
Proof.
  intros Hden. unfold normalize_range, normalized.
  rewrite truediv_positive; [reflexivity |].
  now rewrite (Zlt_Qlt 0 _) in Hden.
Qed.

Lemma normalized_monotone (r : range) (x y : Q) :
  (0 < r_stop r - r_step r - r_start r)%Z ->
  x <= y -> normalized r x <= normalized r y.
Proof.
  intros Hden Hxy. unfold normalized. rewrite !Qred_correct.
  rewrite (Zlt_Qlt 0 _) in Hden.
  unfold Qdiv. apply Qmult_le_compat_r.
  - unfold Qminus. apply Qplus_le_compat; [exact Hxy | apply Qle_refl].
  - apply Qinv_le_0_compat. now apply Qlt_le_weak.
Qed.

Lemma normalized_start (r : range) :
  normalized r (inject_Z (r_start r)) = 0.
Proof.
  unfold normalized. change 0 with (Qred 0). apply Qred_complete.
  unfold Qminus, Qdiv. rewrite Qplus_opp_r. apply Qmult_0_l.
Qed.

Lemma normalized_last (r : range) :
  (0 < r_stop r - r_step r - r_start r)%Z ->
  normalized r (inject_Z (r_stop r - r_step r)) = 1.
Proof.
  intros Hden. unfold normalized. change 1 with (Qred 1).
  apply Qred_complete.
  unfold Qminus. rewrite <- inject_Z_opp, <- inject_Z_plus.
  replace (r_stop r - r_step r + - r_start r)%Z
    with (r_stop r - r_step r - r_start r)%Z by lia.
  apply Qmult_inv_r. intros Hzero.
  rewrite (Zlt_Qlt 0 _), Hzero in Hden.
  now apply Qlt_irrefl in Hden.
Qed.

Lemma normalize_range_uniform (r : range) :
  uniform_scale r -> normalizes r (normalize_range r).
Proof.
  intros Hr. destruct (range_elems_uniform_bounds r Hr) as [Hmin Hmax].
  assert (Hden : (0 < r_stop r - r_step r - r_start r)%Z)
    by (destruct Hr as (_ & _ & Hwide); lia).
  split; [reflexivity |].
  exists (r_start r), (r_stop r - r_step r)%Z.
  repeat split; try assumption.
  - now rewrite normalize_range_value, normalized_start.
  - now rewrite normalize_range_value, normalized_last.
  - intros x Hlo Hhi. exists (normalized r x).
    split; [now apply normalize_range_value |]. split.
    + rewrite <- (normalized_start r). now apply normalized_monotone.
    + rewrite <- (normalized_last r Hden). now apply normalized_monotone.
  - intros x y Hxy. exists (normalized r x), (normalized r y).
    split; [now apply normalize_range_value |].
    split; [now apply normalize_range_value |].
    now apply normalized_monotone.
Qed.

(** C5: on each of the two compare-level scales, varnode and datatype, when
    the scale numbers at least two levels evenly upwards, the normalised
    score of [None] is [None], of the least level 0, of the greatest level 1,
    of every level in between a number of [0,1], and the score does not
    decrease when the level grows. *)
Theorem compare_level_scores_normalize :
  uniform_scale VarnodeCompareLevel_range ->
  uniform_scale DataTypeCompareLevel_range ->
  normalizes VarnodeCompareLevel_range
             varnode_compare_level_to_normalized_score
  /\ normalizes DataTypeCompareLevel_range
                datatype_compare_level_to_normalized_score.
Proof.
  intros Hvarnode Hdatatype. split.
  - exact (normalize_range_uniform _ Hvarnode).
  - exact (normalize_range_uniform _ Hdatatype).
Qed.

End MetricsProperties.

(** ** Division by zero *)

Lemma bytes_recovery_fraction_zero_truth
    {K : Constants} {C : Type} {PC : ProgramInfoCompare2 C} (cmp : C) :
  bytes_truth cmp = 0%Z ->
  bytes_recovery_fraction cmp = Raise ZeroDivisionError.
Proof.
  intros Htruth. unfold bytes_recovery_fraction.
  apply truediv_zero. now rewrite Htruth.
Qed.

Lemma array_elements_error_ratio_zero_elements (cmp : VarnodeCompare2) :
  get_num_elements (get_datatype (get_left cmp)) = 0%Z ->
  array_elements_error_ratio cmp = Raise ZeroDivisionError.
Proof.
  intros Hzero. unfold array_elements_error_ratio.
  apply truediv_zero. now rewrite Hzero.
Qed.

(** ** Metric objects *)

Section MetricObjectsProperties.

Import MetricObjects.

Variable Callable : Type.
Variable hash : Callable -> Z.

Lemma Metric_new_lookup (h : heap Callable) (name : string) (f : Callable) :
  nth_error (fst (Metric_new h name f)) (snd (Metric_new h name f))
  = Some (mkMetric name f).
Proof.
  unfold Metric_new. simpl.
  rewrite nth_error_app2 by lia. now rewrite Nat.sub_diag.
Qed.

Lemma Metric_new_keeps (h : heap Callable) (name : string) (f : Callable)
    (m : ref) (obj : Metric Callable) :
  nth_error h m = Some obj ->
  nth_error (fst (Metric_new h name f)) m = Some obj.
Proof.
  intros Hm. unfold Metric_new. simpl.
  rewrite nth_error_app1; [exact Hm |].
  apply nth_error_Some. congruence.
Qed.

(** C9: two metrics built one after the other on the same compute function,
    under any two display names, hold the same compute function and have the
    same hash, and yet [==] between them is false: the class gives [Metric]
    a [__hash__] but no [__eq__], so equality stays the identity of
    objects. *)
Theorem Metric_same_compute_same_hash_not_equal
    (h : heap Callable) (name1 name2 : string) (f : Callable) :
  let (h1, m1) := Metric_new h name1 f in
  let (h2, m2) := Metric_new h1 name2 f in
  get_compute_function h2 m1 = Some f
  /\ get_compute_function h2 m2 = Some f
  /\ Metric_hash hash h2 m1 = Some (hash f)
  /\ Metric_hash hash h2 m2 = Some (hash f)
  /\ Metric_eq m1 m2 = false.
Proof.
  pose proof (Metric_new_lookup h name1 f) as H1.
  pose proof (Metric_new_lookup (fst (Metric_new h name1 f)) name2 f) as H2.
  pose proof (Metric_new_keeps _ name2 f _ _ H1) as H1'.
  unfold Metric_new in *. simpl in *.
  unfold get_compute_function, Metric_hash, Metric_eq.
  rewrite H1', H2. simpl.
  repeat split.
  apply Nat.eqb_neq. rewrite length_app. simpl. lia.
Qed.

End MetricObjectsProperties.

(** ** The scenarios *)

Section Scenarios.

Import Scenario.

Example sample_bytes :
  bytes_truth sample_compare = 12%Z
  /\ bytes_found sample_compare = 8%Z
  /\ bytes_missed sample_compare = 4%Z
  /\ bytes_recovery_fraction sample_compare = Ok (2 # 3).
Proof. repeat split. Qed.

Example sample_functions :
  List.length (functions_found sample_compare) = 3%nat
  /\ functions_missed sample_compare = [fn "dump"; fn "quit"]
  /\ functions_extraneous sample_compare = [fn "thunk"].
Proof. repeat split. Qed.

Example sample_scores :
  varnodes_avg_compare_level sample_compare false = Ok (Some (5 # 2))
  /\ varnodes_avg_compare_score sample_compare false = Ok (Some (5 # 8))
  /\ varnodes_matched_at_level_counts sample_compare false
     = [0; 1; 0; 0; 1]%nat.
Proof. repeat split. Qed.

Example sample_array_errors :
  let pair :=
    mkVarnodeCompare2 (stack_varnode (-64) 40 (array_type 10))
                      (stack_varnode (-64) 32 (array_type 8)) in
  array_elements_error pair = 2%Z
  /\ array_elements_error_ratio pair = Ok (1 # 5)
  /\ array_size_error pair = 8%Z
  /\ array_size_error_ratio pair = Ok (1 # 5).
Proof. repeat split. Qed.

(** C1: with no eligible ground-truth varnode the bytes recovery fraction
    divides by [bytes_truth = 0] and raises [ZeroDivisionError]; the
    element-count error ratio of an array pair whose left side has no
    element raises it too, and so does its mean over the array comparisons.
    Neither is given back as [None], which is what the dimension match
    ratio gives on no array comparison. *)
Theorem zero_divisor_raises :
  bytes_truth empty_compare = 0%Z
  /\ bytes_recovery_fraction empty_compare = Raise ZeroDivisionError
  /\ get_num_elements (get_datatype (get_left zero_length_pair)) = 0%Z
  /\ array_elements_error_ratio zero_length_pair = Raise ZeroDivisionError
  /\ array_comparisons zero_length_compare = [zero_length_pair]
  /\ mean_over_array_comparisons zero_length_compare
       array_elements_error_ratio = Raise ZeroDivisionError
  /\ array_dimension_match_ratio empty_compare = Ok None.
Proof.
  split; [reflexivity |].
  split; [now apply bytes_recovery_fraction_zero_truth |].
  split; [reflexivity |].
  split; [now apply array_elements_error_ratio_zero_elements |].
  repeat split.
Qed.

End Scenarios.

(** ** The theorems at the scenarios *)

Section ScenarioInstances.

Import Scenario.

Lemma bytes_found_bounds_sample :
  (0 < bytes_truth sample_compare)%Z
  /\ exists q,
       bytes_recovery_fraction sample_compare = Ok q /\ 0 <= q /\ q <= 1.
Proof.
  split; [reflexivity |].
  destruct (bytes_found_bounds sample_compare) as (_ & _ & Hfraction).
  apply Hfraction; [reflexivity |].
  intros record Hin. simpl in Hin.
  destruct Hin as [<- | [<- | []]]; simpl; lia.
Defined.

Lemma missed_is_extraneous_of_flip_sample :
  observably_equal (flip (flip sample_compare)) sample_compare
  /\ functions_missed sample_compare
     = functions_extraneous (flip sample_compare)
  /\ varnodes_missed sample_compare false
     = varnodes_extraneous (flip sample_compare) false.
Proof.
  assert (Hflip : observably_equal (flip (flip sample_compare)) sample_compare)
    by (repeat split; reflexivity).
  split; [exact Hflip |].
  destruct (missed_is_extraneous_of_flip sample_compare Hflip)
    as [Hfunctions Hvarnodes].
  split; [exact Hfunctions | apply Hvarnodes].
Defined.

Lemma compare_level_scores_normalize_scenario :
  uniform_scale VarnodeCompareLevel_range
  /\ uniform_scale DataTypeCompareLevel_range
  /\ normalizes VarnodeCompareLevel_range
                varnode_compare_level_to_normalized_score
  /\ normalizes DataTypeCompareLevel_range
                datatype_compare_level_to_normalized_score.
Proof.
  assert (Hvarnode : uniform_scale VarnodeCompareLevel_range)
    by (repeat split; reflexivity).
  assert (Hdatatype : uniform_scale DataTypeCompareLevel_range)
    by (repeat split; reflexivity).
  split; [exact Hvarnode |]. split; [exact Hdatatype |].
  exact (compare_level_scores_normalize Hvarnode Hdatatype).
Defined.

Lemma avg_compare_score_none_on_empty_scenario :
  select_comparable_varnode_compare_records empty_compare false = []
  /\ varnodes_avg_compare_level empty_compare false = Ok None
  /\ varnodes_avg_compare_score empty_compare false = Ok None
  /\ varnodes_avg_compare_score_metatype sample_compare MetaType_ARRAY false
     = Ok None.
Proof.
  split; [reflexivity |].
  destruct (avg_compare_score_none_on_empty empty_compare false)
    as [Hall _].
  destruct (avg_compare_score_none_on_empty sample_compare false)
    as [_ Hmetatype].
  split; [apply Hall; reflexivity |].
  split; [apply Hall; reflexivity |].
  apply (Hmetatype MetaType_ARRAY). reflexivity.
Defined.

Lemma matched_at_level_counts_sum_sample :
  list_sum (varnodes_matched_at_level_counts sample_compare false)
  = List.length (select_comparable_varnode_compare_records sample_compare false).
Proof.
  apply matched_at_level_counts_sum.
  intros record Hin. simpl in Hin.
  destruct Hin as [<- | [<- | []]]; vm_compute; auto 10.
Defined.

End ScenarioInstances.

(** * Further properties *)

(** ** Lists and numbers *)

Lemma filter_length_le_all {A : Type} (f : A -> bool) (l : list A) :
  (List.length (filter f l) <= List.length l)%nat.
Proof.
  induction l as [| x l IH]; simpl; [lia |].
  destruct (f x); simpl; lia.
Qed.

Lemma filter_map_commute {A B : Type} (g : A -> B) (f : B -> bool)
    (l : list A) :
  filter f (map g l) = map g (filter (fun x => f (g x)) l).
Proof.
  induction l as [| x l IH]; simpl; [reflexivity |].
  destruct (f (g x)); simpl; now rewrite IH.
Qed.

Lemma filter_filter_swap {A : Type} (f g : A -> bool) (l : list A) :
  filter f (filter g l) = filter g (filter f l).
Proof.
  induction l as [| x l IH]; simpl; [reflexivity |].
  destruct (f x) eqn:Ef, (g x) eqn:Eg; simpl;
    rewrite ?Ef, ?Eg, IH; reflexivity.
Qed.

Lemma truediv_self (a : Q) : 0 < a -> truediv a a = Ok 1.
Proof.
  intros Ha. rewrite truediv_positive by exact Ha.
  f_equal. change 1 with (Qred 1). apply Qred_complete.
  apply Qmult_inv_r. intros Hzero. rewrite Hzero in Ha.
  now apply Qlt_irrefl in Ha.
Qed.

Lemma truediv_raises_iff (a b : Q) :
  truediv a b = Raise ZeroDivisionError <-> b == 0.
Proof.
  split; [| apply truediv_zero].
  unfold truediv. destruct (Qeq_bool b 0) eqn:E; [| discriminate].
  intros _. now apply Qeq_bool_eq.
Qed.

Lemma inject_Z_of_nat_zero (n : nat) :
  inject_Z (Z.of_nat n) == 0 <-> n = O.
Proof.
  split.
  - intros H. apply (proj1 (inject_Z_injective (Z.of_nat n) 0)) in H. lia.
  - intros ->. reflexivity.
Qed.

Lemma truediv_lengths {A B : Type} (part : list A) (whole : list B) :
  (List.length part <= List.length whole)%nat -> whole <> [] ->
  exists q,
    truediv (inject_Z (Z.of_nat (List.length part)))
            (inject_Z (Z.of_nat (List.length whole))) = Ok q
    /\ 0 <= q /\ q <= 1.
Proof.
  intros Hle Hwhole. apply truediv_unit_interval; [lia |].
  destruct whole; [contradiction | simpl; lia].
Qed.

Section MoreMetricsProperties.

Context {K : Constants} {U : Upstream} {C : Type}
        {PC : ProgramInfoCompare2 C} {PA : ProgramInfoAccess C}.

(** ** Bytes *)

(** X1: the bytes found and the bytes missed always add up to the
    ground-truth bytes. *)
Theorem bytes_found_plus_missed (cmp : C) :
  (bytes_found cmp + bytes_missed cmp = bytes_truth cmp)%Z.
Proof.
  unfold bytes_missed.
  assert (bytes_found cmp <= bytes_truth cmp)%Z
    by (unfold bytes_found; apply Z.le_min_r).
  lia.
Qed.

(** X2: [bytes_found] is the sum of the overlapped bytes of the comparable
    records as long as that sum does not exceed the ground-truth bytes; once
    it reaches them, [bytes_found] is the ground-truth bytes, nothing is
    missed and, on a ground truth with bytes, the recovery fraction is 1. *)
Theorem bytes_found_clamp (cmp : C) :
  let found :=
    sumZ (map bytes_overlapped
              (select_comparable_varnode_compare_records cmp false)) in
  ((found <= bytes_truth cmp)%Z -> bytes_found cmp = found)
  /\ ((bytes_truth cmp <= found)%Z ->
      bytes_found cmp = bytes_truth cmp
      /\ bytes_missed cmp = 0%Z
      /\ ((0 < bytes_truth cmp)%Z -> bytes_recovery_fraction cmp = Ok 1)).
Proof.
  intros found. split.
  - intros Hle. unfold bytes_found. fold found. lia.
  - intros Hge.
    assert (Hfound : bytes_found cmp = bytes_truth cmp)
      by (unfold bytes_found; fold found; lia).
    split; [exact Hfound |]. split.
    + unfold bytes_missed. rewrite Hfound. lia.
    + intros Hpos. unfold bytes_recovery_fraction. rewrite Hfound.
      apply truediv_self. now rewrite (Zlt_Qlt 0 _) in Hpos.
Qed.

(** ** Functions *)

(** X3: the functions recovery fraction raises [ZeroDivisionError] exactly
    when the ground truth has no function; otherwise, when there are no more
    function compare records than ground-truth functions, it is a number of
    [0,1]. *)
Theorem functions_recovery_fraction_spec (cmp : C) :
  (functions_recovery_fraction cmp = Raise ZeroDivisionError
   <-> functions_truth cmp = [])
  /\ (functions_truth cmp <> [] ->
      (List.length (select_function_compare_records cmp)
       <= List.length (functions_truth cmp))%nat ->
      exists q, functions_recovery_fraction cmp = Ok q /\ 0 <= q /\ q <= 1).
Proof.
  unfold functions_recovery_fraction. split.
  - rewrite truediv_raises_iff, inject_Z_of_nat_zero.
    apply length_zero_iff_nil.
  - intros Hsome Hrecords. apply truediv_lengths; [| exact Hsome].
    unfold functions_found. rewrite length_map.
    pose proof (filter_length_le_all is_comparison
                  (select_function_compare_records cmp)).
    lia.
Qed.

(** ** Records by level *)

Lemma list_sum_indicator_existsb (x : Z) (keys : list Z) :
  NoDup keys ->
  list_sum (map (fun k => if (x =? k)%Z then 1%nat else O) keys)
  = if existsb (Z.eqb x) keys then 1%nat else O.
Proof.
  intros Hnodup. destruct (existsb (Z.eqb x) keys) eqn:E.
  - apply existsb_exists in E. destruct E as (k & Hin & Hk).
    apply Z.eqb_eq in Hk. subst k. now apply list_sum_indicator.
  - rewrite (map_ext_in _ (fun _ => O)); [apply list_sum_map_zero |].
    intros k Hin. destruct (Z.eqb_spec x k) as [-> | _]; [| reflexivity].
    assert (existsb (Z.eqb k) keys = true)
      by (apply existsb_exists; exists k; split; [exact Hin | apply Z.eqb_refl]).
    congruence.
Qed.

(** Counting the members of a list key by key, over keys without
    repetition, counts the members whose key is one of the keys. *)
Lemma count_by_key {A : Type} (key : A -> Z) (xs : list A) (keys : list Z) :
  NoDup keys ->
  list_sum
    (map (fun k => List.length (filter (fun x => (key x =? k)%Z) xs)) keys)
  = List.length (filter (fun x => existsb (Z.eqb (key x)) keys) xs).
Proof.
  intros Hnodup. induction xs as [| x xs IH]; simpl.
  - apply list_sum_map_zero.
  - rewrite (map_ext _
      (fun k =>
         ((if (key x =? k)%Z then 1 else 0)
          + List.length (filter (fun y => (key y =? k)%Z) xs))%nat)).
    + rewrite list_sum_map_add, IH, list_sum_indicator_existsb by exact Hnodup.
      now destruct (existsb (Z.eqb (key x)) keys).
    + intros k. now destruct (key x =? k)%Z.
Qed.

Lemma filter_all_true {A : Type} (f : A -> bool) (l : list A) :
  (forall x, In x l -> f x = true) -> filter f l = l.
Proof.
  induction l as [| x l IH]; simpl; intros Hall; [reflexivity |].
  rewrite (Hall x (or_introl eq_refl)). f_equal.
  apply IH. intros y Hy. apply Hall. now right.
Qed.

Lemma filter_filter_implied {A : Type} (f g : A -> bool) (l : list A) :
  (forall x, f x = true -> g x = true) ->
  filter f (filter g l) = filter f l.
Proof.
  intros Himp. induction l as [| x l IH]; simpl; [reflexivity |].
  destruct (g x) eqn:Eg; simpl.
  - destruct (f x); now rewrite IH.
  - destruct (f x) eqn:Ef; [| exact IH].
    apply Himp in Ef. congruence.
Qed.

(** X4: the two ways the source computes missed varnodes agree, and the
    missed varnodes of a metatype are the missed varnodes that have this
    metatype, in the same order. *)
Theorem varnodes_missed_paths_agree (cmp : C) (primitive : bool) :
  varnodes_missed cmp primitive
  = varnodes_missed_
      (select_comparable_varnode_compare_records cmp primitive)
  /\ forall metatype,
       varnodes_missed_metatype cmp metatype primitive
       = filter (fun varnode =>
                   (get_metatype (get_datatype varnode) =? metatype)%Z)
                (varnodes_missed cmp primitive).
Proof.
  split; [reflexivity |].
  intros metatype.
  unfold varnodes_missed_metatype, varnodes_missed_, varnodes_missed,
    varnode_compare_records_missed_, varnode_compare_records_match_levels,
    _varnode_compare_records_match_levels,
    _select_comparable_varnode_compare_records_metatype.
  rewrite filter_map_commute. f_equal. apply filter_filter_swap.
Qed.

(** X5: for levels listed without repetition, the records whose level is
    one of them are as many as the records matched at exactly each of them,
    added up. *)
Theorem match_levels_count (varnode_cmp_records : list VarnodeCompareRecord)
    (levels : list Z) :
  NoDup levels ->
  List.length (_varnode_compare_records_match_levels
                 varnode_cmp_records levels)
  = list_sum
      (map (fun level =>
              List.length
                (_varnode_compare_records_matched_at_level
                   varnode_cmp_records level))
           levels).
Proof.
  intros Hnodup. symmetry.
  apply (count_by_key get_compare_level varnode_cmp_records levels Hnodup).
Qed.

(** X6: selecting the records matched at or above a level from those
    matched at or above a lower one gives the records matched at or above
    the higher level: raising the level only drops records. *)
Theorem matched_at_above_level_narrows
    (varnode_cmp_records : list VarnodeCompareRecord) (level1 level2 : Z) :
  (level1 <= level2)%Z ->
  _varnode_compare_records_matched_at_above_level varnode_cmp_records level2
  = _varnode_compare_records_matched_at_above_level
      (_varnode_compare_records_matched_at_above_level
         varnode_cmp_records level1) level2
  /\ (List.length
        (_varnode_compare_records_matched_at_above_level
           varnode_cmp_records level2)
      <= List.length
           (_varnode_compare_records_matched_at_above_level
              varnode_cmp_records level1))%nat.
Proof.
  intros Hle.
  assert (Heq :
    _varnode_compare_records_matched_at_above_level varnode_cmp_records level2
    = _varnode_compare_records_matched_at_above_level
        (_varnode_compare_records_matched_at_above_level
           varnode_cmp_records level1) level2).
  { unfold _varnode_compare_records_matched_at_above_level. symmetry.
    apply filter_filter_implied. intros record Hrecord.
    apply Z.leb_le in Hrecord. apply Z.leb_le. lia. }
  split; [exact Heq |].
  rewrite Heq. unfold _varnode_compare_records_matched_at_above_level at 1.
  apply filter_length_le_all.
Qed.

(** X7: when the level of every comparable record is a level of the varnode
    compare-level range, the records matched at or above a level are as
    many as the records matched at exactly each level of the range that is
    at least that level, added up. *)
Theorem matched_at_above_level_counts (cmp : C) (level : Z)
    (primitive : bool) :
  (forall record,
     In record (select_comparable_varnode_compare_records cmp primitive) ->
     In (get_compare_level record) (range_elems VarnodeCompareLevel_range)) ->
  List.length
    (varnode_compare_records_matched_at_above_level cmp level primitive)
  = list_sum
      (map (fun compare_level =>
              List.length
                (varnode_compare_records_matched_at_level
                   cmp compare_level primitive))
           (filter (fun compare_level => (level <=? compare_level)%Z)
                   (range_elems VarnodeCompareLevel_range))).
Proof.
  intros Hin.
  unfold varnode_compare_records_matched_at_above_level,
    varnode_compare_records_matched_at_level,
    _varnode_compare_records_matched_at_level.
  rewrite (count_by_key get_compare_level)
    by (apply NoDup_filter, range_elems_NoDup).
  unfold _varnode_compare_records_matched_at_above_level. f_equal.
  apply filter_ext_in. intros record Hrecord.
  destruct (Z.leb_spec level (get_compare_level record)) as [Hle | Hlt].
  - symmetry. apply existsb_exists. exists (get_compare_level record).
    split; [| apply Z.eqb_refl].
    apply filter_In. split; [now apply Hin | now apply Z.leb_le].
  - symmetry. apply not_true_iff_false. intros Hex.
    apply existsb_exists in Hex. destruct Hex as (l & Hl & Heq).
    apply Z.eqb_eq in Heq. subst l.
    apply filter_In in Hl. destruct Hl as [_ Hl].
    apply Z.leb_le in Hl. lia.
Qed.

(** X8: when no comparable record has a level below [NO_MATCH], every
    comparable record is either missed or matched at or above the level
    after [NO_MATCH]: the two counts add up to the number of records. *)
Theorem missed_or_matched_above_no_match (cmp : C) (primitive : bool) :
  (forall record,
     In record (select_comparable_varnode_compare_records cmp primitive) ->
     (VarnodeCompareLevel_NO_MATCH <= get_compare_level record)%Z) ->
  (List.length (varnodes_missed cmp primitive)
   + List.length
       (varnode_compare_records_matched_at_above_level
          cmp (VarnodeCompareLevel_NO_MATCH + 1) primitive))%nat
  = List.length (select_comparable_varnode_compare_records cmp primitive).
Proof.
  intros Hmin.
  unfold varnodes_missed, varnode_compare_records_match_levels,
    _varnode_compare_records_match_levels,
    varnode_compare_records_matched_at_above_level,
    _varnode_compare_records_matched_at_above_level.
  rewrite length_map.
  rewrite <- (filter_negb_length
                (fun record =>
                   existsb (Z.eqb (get_compare_level record))
                           [VarnodeCompareLevel_NO_MATCH])
                (select_comparable_varnode_compare_records cmp primitive)).
  f_equal. f_equal. apply filter_ext_in. intros record Hrecord.
  specialize (Hmin record Hrecord). simpl. rewrite orb_false_r.
  destruct (Z.eqb_spec (get_compare_level record)
                       VarnodeCompareLevel_NO_MATCH);
    destruct (Z.leb_spec (VarnodeCompareLevel_NO_MATCH + 1)
                         (get_compare_level record));
    simpl; try reflexivity; lia.
Qed.

(** ** Averages *)

Lemma inject_Z_of_nat_succ (n : nat) :
  inject_Z (Z.of_nat (S n)) == inject_Z (Z.of_nat n) + 1.
Proof.
  rewrite Nat2Z.inj_succ. unfold Z.succ. rewrite inject_Z_plus.
  apply Qeq_refl.
Qed.

Lemma sumQ_bounds (xs : list Q) (lo hi : Q) :
  (forall x, In x xs -> lo <= x /\ x <= hi) ->
  lo * inject_Z (Z.of_nat (List.length xs)) <= sumQ xs
  /\ sumQ xs <= hi * inject_Z (Z.of_nat (List.length xs)).
Proof.
  induction xs as [| x xs IH]; intros Hall.
  - simpl. rewrite !Qmult_0_r. split; apply Qle_refl.
  - destruct (Hall x (or_introl eq_refl)) as [Hlo Hhi].
    destruct IH as [IHlo IHhi]; [intros y Hy; apply Hall; now right |].
    cbn [List.length sumQ fold_right]. fold (sumQ xs).
    rewrite inject_Z_of_nat_succ, !Qmult_plus_distr_r, !Qmult_1_r.
    split.
    + rewrite (Qplus_comm (lo * _) lo). now apply Qplus_le_compat.
    + rewrite (Qplus_comm (hi * _) hi). now apply Qplus_le_compat.
Qed.

(** The mean of numbers between two bounds is computed and lies between
    them. *)
Lemma mean_bounds (xs : list Q) (lo hi : Q) :
  xs <> [] ->
  (forall x, In x xs -> lo <= x /\ x <= hi) ->
  exists m, mean xs = Ok m /\ lo <= m /\ m <= hi.
Proof.
  intros Hsome Hall.
  destruct (sumQ_bounds xs lo hi Hall) as [Hlo Hhi].
  assert (Hn : 0 < inject_Z (Z.of_nat (List.length xs))).
  { rewrite <- (Zlt_Qlt 0 _). destruct xs; [contradiction | simpl; lia]. }
  exists (Qred (sumQ xs / inject_Z (Z.of_nat (List.length xs)))).
  split; [destruct xs; [contradiction | reflexivity] |].
  rewrite !Qred_correct. split.
  - now apply Qle_shift_div_l.
  - now apply Qle_shift_div_r.
Qed.

Lemma Qred_inject_Z (z : Z) : Qred (inject_Z z) = inject_Z z.
Proof. apply Qcanon.Qred_identity. simpl. apply Z.gcd_1_r. Qed.

Lemma mean_constant (xs : list Q) (z : Z) :
  xs <> [] ->
  (forall x, In x xs -> x = inject_Z z) ->
  mean xs = Ok (inject_Z z).
Proof.
  intros Hsome Hall.
  destruct (sumQ_bounds xs (inject_Z z) (inject_Z z)) as [Hlo Hhi].
  { intros x Hx. rewrite (Hall x Hx). split; apply Qle_refl. }
  assert (Hn : 0 < inject_Z (Z.of_nat (List.length xs))).
  { rewrite <- (Zlt_Qlt 0 _). destruct xs; [contradiction | simpl; lia]. }
  destruct xs as [| x xs]; [contradiction |].
  unfold mean. f_equal. rewrite <- (Qred_inject_Z z).
  apply Qred_complete. apply Qle_antisym.
  - now apply Qle_shift_div_r.
  - now apply Qle_shift_div_l.
Qed.

Lemma _varnodes_avg_compare_level_mean
    (varnode_cmp_records : list VarnodeCompareRecord) :
  varnode_cmp_records <> [] ->
  _varnodes_avg_compare_level varnode_cmp_records
  = (m <- mean (map inject_Z (map get_compare_level varnode_cmp_records)) ;;
     Ok (Some m)).
Proof.
  intros Hsome. unfold _varnodes_avg_compare_level.
  destruct varnode_cmp_records; [contradiction | reflexivity].
Qed.

Lemma avg_level_between
    (varnode_cmp_records : list VarnodeCompareRecord) (lo hi : Z) :
  varnode_cmp_records <> [] ->
  (forall record, In record varnode_cmp_records ->
                  (lo <= get_compare_level record <= hi)%Z) ->
  exists m,
    _varnodes_avg_compare_level varnode_cmp_records = Ok (Some m)
    /\ inject_Z lo <= m /\ m <= inject_Z hi.
Proof.
  intros Hsome Hall.
  destruct (mean_bounds
              (map inject_Z (map get_compare_level varnode_cmp_records))
              (inject_Z lo) (inject_Z hi)) as (m & Hmean & Hm).
  - destruct varnode_cmp_records; [contradiction | discriminate].
  - intros x Hx. rewrite map_map in Hx. apply in_map_iff in Hx.
    destruct Hx as (record & <- & Hrecord).
    rewrite <- !Zle_Qle. now apply Hall.
  - exists m. split; [| exact Hm].
    rewrite _varnodes_avg_compare_level_mean by exact Hsome.
    now rewrite Hmean.
Qed.


(** X10: when all the records have one and the same level, their average
    compare level is that level. *)
Theorem avg_compare_level_constant
    (varnode_cmp_records : list VarnodeCompareRecord) (level : Z) :
  varnode_cmp_records <> [] ->
  (forall record, In record varnode_cmp_records ->
                  get_compare_level record = level) ->
  _varnodes_avg_compare_level varnode_cmp_records
  = Ok (Some (inject_Z level)).
Proof.
  intros Hsome Hall.
  rewrite _varnodes_avg_compare_level_mean by exact Hsome.
  rewrite (mean_constant _ level); [reflexivity | |].
  - destruct varnode_cmp_records; [contradiction | discriminate].
  - intros x Hx. rewrite map_map in Hx. apply in_map_iff in Hx.
    destruct Hx as (record & <- & Hrecord). now rewrite (Hall record Hrecord).
Qed.

Lemma list_min_le (xs : list Z) (lo x : Z) :
  list_min xs = Some lo -> In x xs -> (lo <= x)%Z.
Proof.
  revert lo. induction xs as [| y xs IH]; intros lo Hmin Hin; [contradiction |].
  simpl in Hmin. destruct (list_min xs) as [m |] eqn:E.
  - injection Hmin as <-. destruct Hin as [-> | Hin]; [lia |].
    specialize (IH m eq_refl Hin). lia.
  - injection Hmin as <-. destruct Hin as [-> | Hin]; [lia |].
    destruct xs; [contradiction | simpl in E].
    destruct (list_min xs); discriminate.
Qed.

Lemma list_max_ge (xs : list Z) (hi x : Z) :
  list_max xs = Some hi -> In x xs -> (x <= hi)%Z.
Proof.
  revert hi. induction xs as [| y xs IH]; intros hi Hmax Hin; [contradiction |].
  simpl in Hmax. destruct (list_max xs) as [m |] eqn:E.
  - injection Hmax as <-. destruct Hin as [-> | Hin]; [lia |].
    specialize (IH m eq_refl Hin). lia.
  - injection Hmax as <-. destruct Hin as [-> | Hin]; [lia |].
    destruct xs; [contradiction | simpl in E].
    destruct (list_max xs); discriminate.
Qed.

Lemma range_elems_uniform_In (r : range) (level : Z) :
  uniform_scale r -> In level (range_elems r) ->
  (r_start r <= level <= r_stop r - r_step r)%Z.
Proof.
  intros Hr Hin. destruct (range_elems_uniform_bounds r Hr) as [Hmin Hmax].
  split.
  - exact (list_min_le _ _ _ Hmin Hin).
  - exact (list_max_ge _ _ _ Hmax Hin).
Qed.

(** The normalised average level of a list of records: [None] on no record,
    otherwise a number of [0,1], on a scale that holds every level. *)
Lemma avg_compare_score_of_records
    (varnode_cmp_records : list VarnodeCompareRecord) :
  uniform_scale VarnodeCompareLevel_range ->
  (forall record, In record varnode_cmp_records ->
     In (get_compare_level record) (range_elems VarnodeCompareLevel_range)) ->
  exists s,
    (lvl <- _varnodes_avg_compare_level varnode_cmp_records ;;
     varnode_compare_level_to_normalized_score lvl) = Ok s
    /\ (s = None <-> varnode_cmp_records = [])
    /\ (forall q, s = Some q -> 0 <= q /\ q <= 1).
Proof.
  intros Hscale Hin.
  destruct varnode_cmp_records as [| record records].
  - exists None. repeat split; intros; discriminate.
  - set (recs := record :: records) in *.
    assert (Hden : (0 < r_stop VarnodeCompareLevel_range
                        - r_step VarnodeCompareLevel_range
                        - r_start VarnodeCompareLevel_range)%Z)
      by (destruct Hscale as (_ & _ & Hwide); lia).
    destruct (avg_level_between recs
                (r_start VarnodeCompareLevel_range)
                (r_stop VarnodeCompareLevel_range
                 - r_step VarnodeCompareLevel_range))
      as (m & Hm & Hlo & Hhi).
    + discriminate.
    + intros r Hr. apply range_elems_uniform_In; [exact Hscale | now apply Hin].
    + exists (Some (normalized VarnodeCompareLevel_range m)).
      split; [| split].
      * rewrite Hm. unfold varnode_compare_level_to_normalized_score.
        simpl bind. now apply normalize_range_value.
      * split; discriminate.
      * intros q Hq. injection Hq as <-. split.
        -- rewrite <- (normalized_start VarnodeCompareLevel_range).
           now apply normalized_monotone.
        -- rewrite <- (normalized_last VarnodeCompareLevel_range Hden).
           now apply normalized_monotone.
Qed.

(** X11: on a scale that numbers its levels evenly and holds the level of
    every comparable record, the average compare score, of all comparable
    records or of those of one metatype, is never an exception: it is [None]
    exactly when no record is selected, and otherwise a number of [0,1]. *)
Theorem avg_compare_score_unit_interval (cmp : C) (primitive : bool) :
  uniform_scale VarnodeCompareLevel_range ->
  (forall record,
     In record (select_comparable_varnode_compare_records cmp primitive) ->
     In (get_compare_level record) (range_elems VarnodeCompareLevel_range)) ->
  (exists s,
     varnodes_avg_compare_score cmp primitive = Ok s
     /\ (s = None
         <-> select_comparable_varnode_compare_records cmp primitive = [])
     /\ (forall q, s = Some q -> 0 <= q /\ q <= 1))
  /\ (forall metatype,
        exists s,
          varnodes_avg_compare_score_metatype cmp metatype primitive = Ok s
          /\ (s = None
              <-> _select_comparable_varnode_compare_records_metatype
                    cmp metatype primitive = [])
          /\ (forall q, s = Some q -> 0 <= q /\ q <= 1)).
Proof.
  intros Hscale Hin. split.
  - now apply avg_compare_score_of_records.
  - intros metatype. apply avg_compare_score_of_records; [exact Hscale |].
    intros record Hrecord. apply Hin.
    unfold _select_comparable_varnode_compare_records_metatype in Hrecord.
    now apply filter_In in Hrecord.
Qed.

(** ** Varnodes by metatype *)

Lemma varnodes_truth_metatype_records (cmp : C) (metatype : Z)
    (primitive : bool) :
  varnodes_truth_metatype cmp metatype primitive
  = map get_varnode
        (_select_comparable_varnode_compare_records_metatype
           cmp metatype primitive).
Proof.
  unfold varnodes_truth_metatype, _select_comparable_varnodes_metatype,
    select_comparable_varnodes,
    _select_comparable_varnode_compare_records_metatype.
  apply filter_map_commute.
Qed.

(** X12: the ground-truth varnodes of a metatype are the varnodes of the
    comparable records of that metatype, so the count shown for a metatype
    is the number of records its average is taken over; and when the level
    of each of these records is in the compare-level range, the per-level
    counts of the metatype add up to it. *)
Theorem varnodes_truth_metatype_counts (cmp : C) (metatype : Z)
    (primitive : bool) :
  varnodes_truth_metatype cmp metatype primitive
  = map get_varnode
        (_select_comparable_varnode_compare_records_metatype
           cmp metatype primitive)
  /\ ((forall record,
         In record (_select_comparable_varnode_compare_records_metatype
                      cmp metatype primitive) ->
         In (get_compare_level record)
            (range_elems VarnodeCompareLevel_range)) ->
      list_sum
        (map (fun compare_level =>
                List.length
                  (varnode_compare_records_matched_at_level_metatype
                     cmp metatype compare_level primitive))
             (range_elems VarnodeCompareLevel_range))
      = List.length (varnodes_truth_metatype cmp metatype primitive)).
Proof.
  pose proof (varnodes_truth_metatype_records cmp metatype primitive)
    as Htruth.
  split; [exact Htruth |].
  intros Hin. rewrite Htruth, length_map.
  rewrite <- (matched_at_level_counts _ _
                (range_elems_NoDup VarnodeCompareLevel_range) Hin).
  f_equal. apply map_ext. intros compare_level.
  unfold varnode_compare_records_matched_at_level_metatype,
    varnode_compare_records_matched_at_level,
    _varnode_compare_records_matched_at_level,
    _select_comparable_varnode_compare_records_metatype.
  now rewrite filter_filter_swap.
Qed.

(** X13: over metatypes listed without repetition that cover the metatype
    of every comparable record, the ground-truth varnode counts of the
    metatypes add up to the ground-truth varnode count. *)
Theorem varnodes_truth_metatype_partition (cmp : C) (metatypes : list Z)
    (primitive : bool) :
  NoDup metatypes ->
  (forall record,
     In record (select_comparable_varnode_compare_records cmp primitive) ->
     In (get_metatype (get_datatype (get_varnode record))) metatypes) ->
  list_sum
    (map (fun metatype =>
            List.length (varnodes_truth_metatype cmp metatype primitive))
         metatypes)
  = List.length (varnodes_truth cmp primitive).
Proof.
  intros Hnodup Hcover.
  rewrite (map_ext _
    (fun metatype =>
       List.length
         (filter (fun record =>
                    (get_metatype (get_datatype (get_varnode record))
                     =? metatype)%Z)
                 (select_comparable_varnode_compare_records cmp primitive)))).
  - rewrite (count_by_key
               (fun record => get_metatype (get_datatype (get_varnode record)))
               _ _ Hnodup).
    rewrite filter_all_true.
    + unfold varnodes_truth, select_comparable_varnodes.
      now rewrite length_map.
    + intros record Hrecord. apply existsb_exists.
      exists (get_metatype (get_datatype (get_varnode record))).
      split; [now apply Hcover | apply Z.eqb_refl].
  - intros metatype.
    rewrite varnodes_truth_metatype_records.
    unfold _select_comparable_varnode_compare_records_metatype.
    apply length_map.
Qed.

(** ** Arrays *)

(** X14: the array records inferred as arrays are among the ground-truth
    array records; the fraction of the two counts raises
    [ZeroDivisionError] exactly when there is no ground-truth array record,
    and is otherwise a number of [0,1]. *)
Theorem array_inferred_fraction_spec (cmp : C) :
  incl (array_varnode_compare_records_inferred cmp)
       (array_varnode_compare_records_truth cmp)
  /\ (array_inferred_fraction cmp = Raise ZeroDivisionError
      <-> array_varnode_compare_records_truth cmp = [])
  /\ (array_varnode_compare_records_truth cmp <> [] ->
      exists q, array_inferred_fraction cmp = Ok q /\ 0 <= q /\ q <= 1).
Proof.
  split; [| split].
  - unfold array_varnode_compare_records_inferred. apply incl_filter.
  - unfold array_inferred_fraction.
    rewrite truediv_raises_iff, inject_Z_of_nat_zero.
    apply length_zero_iff_nil.
  - intros Hsome. unfold array_inferred_fraction.
    apply truediv_lengths; [| exact Hsome].
    unfold array_varnode_compare_records_inferred.
    apply filter_length_le_all.
Qed.



Lemma mapM_ok {A B : Type} (f : A -> result B) (P : B -> Prop)
    (xs : list A) :
  (forall x, In x xs -> exists y, f x = Ok y /\ P y) ->
  exists ys,
    mapM f xs = Ok ys
    /\ List.length ys = List.length xs
    /\ (forall y, In y ys -> P y).
Proof.
  induction xs as [| x xs IH]; intros Hall.
  - exists []. repeat split. intros y [].
  - destruct (Hall x (or_introl eq_refl)) as (y & Hy & HP).
    destruct IH as (ys & Hys & Hlen & HPs);
      [intros z Hz; apply Hall; now right |].
    exists (y :: ys). simpl. rewrite Hy, Hys. simpl.
    repeat split; [now rewrite Hlen |].
    intros z [<- | Hz]; [exact HP | now apply HPs].
Qed.








Lemma dim_matches_count (same : VarnodeCompare2 -> bool)
    (cmps : list VarnodeCompare2) (init : Z) :
  fold_left (fun dim_matches cmp =>
               if same cmp then (dim_matches + 1)%Z else dim_matches)
            cmps init
  = (init + Z.of_nat (List.length (filter same cmps)))%Z.
Proof.
  revert init. induction cmps as [| c cmps IH]; intros init; simpl; [lia |].
  rewrite IH. destruct (same c); simpl List.length; lia.
Qed.

(** X18: the dimension match ratio never raises: it is [None] exactly on no
    comparison and otherwise a number of [0,1], which is 1 when the two
    sides of every comparison have the same number of dimensions. *)
Theorem _array_dimension_match_ratio_spec (cmps : list VarnodeCompare2) :
  exists r,
    _array_dimension_match_ratio cmps = Ok r
    /\ (r = None <-> cmps = [])
    /\ (forall q, r = Some q -> 0 <= q /\ q <= 1)
    /\ (cmps <> [] ->
        (forall cmp, In cmp cmps ->
           num_dimensions (get_datatype (get_left cmp))
           = num_dimensions (get_datatype (get_right cmp))) ->
        r = Some 1).
Proof.
  unfold _array_dimension_match_ratio. cbv zeta.
  pose (same := fun cmp : VarnodeCompare2 =>
         (num_dimensions (get_datatype (get_left cmp))
          =? num_dimensions (get_datatype (get_right cmp)))%Z).
  change (fold_left _ cmps 0%Z)
    with (fold_left (fun dim_matches cmp =>
                       if same cmp then (dim_matches + 1)%Z else dim_matches)
                    cmps 0%Z).
  rewrite (dim_matches_count same cmps 0). rewrite Z.add_0_l.
  destruct cmps as [| c cmps].
  - exists None. repeat split; try discriminate. intros Hne. contradiction.
  - set (all := c :: cmps).
    destruct (truediv_lengths (filter same all) all) as (q & Hq & Hq0 & Hq1).
    + apply filter_length_le_all.
    + discriminate.
    + exists (Some q). change (0 <? List.length all)%nat with true. cbv iota.
      rewrite Hq. simpl bind.
      split; [reflexivity |]. split; [split; discriminate |]. split.
      * intros q' Hq'. injection Hq' as <-. now split.
      * intros _ Hall. f_equal.
        rewrite filter_all_true in Hq
          by (intros cmp Hcmp; apply Z.eqb_eq; now apply Hall).
        rewrite truediv_self in Hq; [congruence |].
        rewrite <- (Zlt_Qlt 0 _). simpl. lia.
Qed.

(** X19: the subtype match ratio divides by the number of comparisons
    without a test: it raises [ZeroDivisionError] exactly on no comparison,
    where the subtype average compare score and the dimension match ratio
    are [None]; on some comparisons it is a number of [0,1]. *)
Theorem _array_subtype_match_ratio_spec (cmps : list VarnodeCompare2)
    (level : Z) :
  (_array_subtype_match_ratio cmps level = Raise ZeroDivisionError
   <-> cmps = [])
  /\ (cmps <> [] ->
      exists q, _array_subtype_match_ratio cmps level = Ok q
                /\ 0 <= q /\ q <= 1)
  /\ _array_subtype_avg_compare_score [] = Ok None
  /\ _array_dimension_match_ratio [] = Ok None.
Proof.
  unfold _array_subtype_match_ratio. split; [| split; [| split]].
  - rewrite truediv_raises_iff, inject_Z_of_nat_zero.
    apply length_zero_iff_nil.
  - intros Hsome.
    replace (List.length cmps)
      with (List.length (_subtype_comparisons cmps))
      by (unfold _subtype_comparisons; apply length_map).
    apply truediv_lengths; [apply filter_length_le_all |].
    destruct cmps; [contradiction | discriminate].
  - reflexivity.
  - reflexivity.
Qed.

End MoreMetricsProperties.

(** ** The registry *)

Lemma mapM_app {A B : Type} (f : A -> result B) (xs ys : list A) :
  mapM f (xs ++ ys)
  = (a <- mapM f xs ;; b <- mapM f ys ;; Ok (a ++ b)).
Proof.
  induction xs as [| x xs IH]; simpl.
  - now destruct (mapM f ys).
  - destruct (f x) as [y | e]; simpl; [| reflexivity].
    rewrite IH. destruct (mapM f xs) as [a | e]; simpl; [| reflexivity].
    now destruct (mapM f ys).
Qed.

Lemma mapM_Forall2 {A B : Type} (f : A -> result B) (xs : list A)
    (ys : list B) :
  mapM f xs = Ok ys <-> Forall2 (fun x y => f x = Ok y) xs ys.
Proof.
  revert ys. induction xs as [| x xs IH]; intros ys; simpl.
  - split.
    + intros H. injection H as <-. constructor.
    + intros H. inversion H. reflexivity.
  - split.
    + destruct (f x) as [y | e] eqn:Efx; simpl; [| discriminate].
      destruct (mapM f xs) as [zs | e] eqn:Exs; simpl; [| discriminate].
      intros H. injection H as <-. constructor; [exact Efx | now apply IH].
    + intros H. inversion H as [| x' y xs' zs Hy Hrest]; subst.
      rewrite Hy. simpl. apply IH in Hrest. now rewrite Hrest.
Qed.

Section RegistryProperties.

Import MetricObjects MetricsGroups.

Context {K : Constants} {U : Upstream} {C : Type}
        {PC : ProgramInfoCompare2 C} {PA : ProgramInfoAccess C}.

Lemma compute_results_mk_add (group : MetricsGroup C) (name : string)
    (f : Callable C) (cmp : C) :
  compute_results (mk_add_metric group name f) cmp
  = (vs <- compute_results group cmp ;; v <- f cmp ;; Ok (vs ++ [v])).
Proof.
  unfold compute_results, mk_add_metric. simpl get_metrics.
  rewrite mapM_app. destruct (mapM _ (get_metrics group)); simpl;
    [| reflexivity].
  unfold Metric_call. simpl. now destruct (f cmp).
Qed.

(** X20: the results of a group to which a metric was added are the results
    of the group followed by the value of the new metric: the metrics are
    computed in the order they were added, and the first exception stops
    the computation. *)
Theorem compute_results_after_add (group : MetricsGroup C) (name : string)
    (f : Callable C) (cmp : C) :
  compute_results (mk_add_metric group name f) cmp
  = (vs <- compute_results group cmp ;; v <- f cmp ;; Ok (vs ++ [v]))
  /\ compute_results (add_metric group (mkMetric name f)) cmp
     = compute_results (mk_add_metric group name f) cmp
  /\ compute_results (MetricsGroup_new name name None) cmp = Ok [].
Proof.
  split; [apply compute_results_mk_add |]. split; reflexivity.
Qed.

(** X21: the results of a group are values exactly when every metric of
    the group computes a value on the comparison; then there is one value
    for each metric, in the order of the metrics. *)
Theorem compute_results_values (group : MetricsGroup C) (cmp : C) :
  ((exists vs, compute_results group cmp = Ok vs)
   <-> (forall metric, In metric (get_metrics group) ->
                       exists v, Metric_call metric cmp = Ok v))
  /\ (forall vs,
        compute_results group cmp = Ok vs ->
        List.length vs = List.length (get_metrics group)
        /\ Forall2 (fun metric v => Metric_call metric cmp = Ok v)
                   (get_metrics group) vs).
Proof.
  unfold compute_results. split.
  - split.
    + intros (vs & Hvs) metric Hin. apply mapM_Forall2 in Hvs.
      clear - Hvs Hin. induction Hvs as [| m v ms vs Hm _ IH];
        [contradiction |].
      destruct Hin as [<- | Hin]; [now exists v | now apply IH].
    + intros Hall.
      destruct (mapM_ok (fun metric => Metric_call metric cmp)
                        (fun _ => True) (get_metrics group))
        as (vs & Hvs & _).
      * intros metric Hin. destruct (Hall metric Hin) as (v & Hv).
        now exists v.
      * now exists vs.
  - intros vs Hvs. apply mapM_Forall2 in Hvs. split; [| exact Hvs].
    symmetry. exact (Forall2_length Hvs).
Qed.


Lemma compute_results_level_loop (title : Z -> string)
    (count : Z -> C -> value) (levels : list Z) (group : MetricsGroup C)
    (cmp : C) :
  compute_results
    (fold_left
       (fun group compare_level =>
          mk_add_metric group (title compare_level)
                        (fun cmp => Ok (count compare_level cmp)))
       levels group) cmp
  = (vs <- compute_results group cmp ;;
     Ok (vs ++ map (fun compare_level => count compare_level cmp) levels)).
Proof.
  revert group. induction levels as [| level levels IH]; intros group.
  - simpl. destruct (compute_results group cmp); simpl;
      [now rewrite app_nil_r | reflexivity].
  - simpl fold_left. rewrite IH, compute_results_mk_add.
    destruct (compute_results group cmp); simpl; [| reflexivity].
    now rewrite <- app_assoc.
Qed.

Lemma make_varnodes_group_results (name display_name : string)
    (primitive : bool) (cmp : C) :
  compute_results (make_varnodes_group name display_name primitive) cmp
  = (s <- varnodes_avg_compare_score cmp primitive ;;
     Ok (VLen (varnodes_truth cmp primitive)
         :: map (fun compare_level =>
                   VLen (varnode_compare_records_matched_at_level
                           cmp compare_level primitive))
                (range_elems VarnodeCompareLevel_range)
         ++ [VOptional s])).
Proof.
  unfold make_varnodes_group. cbv zeta.
  rewrite compute_results_mk_add.
  pose proof (compute_results_level_loop
    (fun compare_level =>
       ("Varnodes matched @ level "
        ++ VarnodeCompareLevel_to_string compare_level)%string)
    (fun compare_level cmp =>
       VLen (varnode_compare_records_matched_at_level
               cmp compare_level primitive))) as Hloop.
  cbv beta in Hloop. rewrite Hloop, compute_results_mk_add.
  simpl. unfold lift_optional.
  now destruct (varnodes_avg_compare_score cmp primitive).
Qed.

Lemma make_varnodes_metatype_group_results
    (name_prefix : string) (display_name : string -> string)
    (level_title : string) (primitive : bool) (metatype : Z) (cmp : C) :
  compute_results
    (make_varnodes_metatype_group name_prefix display_name level_title
                                  primitive metatype) cmp
  = (s <- varnodes_avg_compare_score_metatype cmp metatype primitive ;;
     Ok (VLen (varnodes_truth_metatype cmp metatype primitive)
         :: map (fun compare_level =>
                   VLen (varnode_compare_records_matched_at_level_metatype
                           cmp metatype compare_level primitive))
                (range_elems VarnodeCompareLevel_range)
         ++ [VOptional s])).
Proof.
  unfold make_varnodes_metatype_group. cbv zeta.
  rewrite compute_results_mk_add.
  pose proof (compute_results_level_loop
    (fun compare_level =>
       (level_title ++ VarnodeCompareLevel_to_string compare_level)%string)
    (fun compare_level cmp =>
       VLen (varnode_compare_records_matched_at_level_metatype
               cmp metatype compare_level primitive))) as Hloop.
  cbv beta in Hloop. rewrite Hloop, compute_results_mk_add.
  simpl. unfold lift_optional.
  now destruct (varnodes_avg_compare_score_metatype cmp metatype primitive).
Qed.

(** X23: the results of a varnode group, whole or decomposed, are the
    number of ground-truth varnodes, then for each level of the
    compare-level range, in its order, the number of records matched at
    exactly this level, then the average compare score; the results of a
    per-metatype group are the same numbers for the metatype of the group.
    Each per-level metric thus counts at the level it was created for. *)
Theorem varnodes_groups_results (primitive : bool) (cmp : C) :
  (forall name display_name,
     compute_results (make_varnodes_group name display_name primitive) cmp
     = (s <- varnodes_avg_compare_score cmp primitive ;;
        Ok (VLen (varnodes_truth cmp primitive)
            :: map (fun compare_level =>
                      VLen (varnode_compare_records_matched_at_level
                              cmp compare_level primitive))
                   (range_elems VarnodeCompareLevel_range)
            ++ [VOptional s])))
  /\ (forall name_prefix display_name level_title metatype,
        compute_results
          (make_varnodes_metatype_group name_prefix display_name level_title
                                        primitive metatype) cmp
        = (s <- varnodes_avg_compare_score_metatype cmp metatype primitive ;;
           Ok (VLen (varnodes_truth_metatype cmp metatype primitive)
               :: map (fun compare_level =>
                         VLen
                           (varnode_compare_records_matched_at_level_metatype
                              cmp metatype compare_level primitive))
                      (range_elems VarnodeCompareLevel_range)
               ++ [VOptional s]))).
Proof.
  split.
  - intros name display_name. apply make_varnodes_group_results.
  - intros name_prefix display_name level_title metatype.
    apply make_varnodes_metatype_group_results.
Qed.



End RegistryProperties.

(** ** The further properties at the scenarios *)

Section MoreScenarioInstances.

Import Scenario ScenarioUpstream MetricObjects MetricsGroups.

Example array_scenario :
  array_comparisons array_compare = [array_pair]
  /\ List.length (array_varnode_compare_records_truth array_compare) = 2%nat
  /\ array_inferred_fraction array_compare = Ok (1 # 2)
  /\ mean_over_array_comparisons array_compare array_elements_error_ratio
     = Ok (Some (1 # 5))
  /\ array_dimension_match_ratio array_compare = Ok (Some 1)
  /\ array_subtype_match_ratio array_compare DataTypeCompareLevel_MATCH
     = Ok 1.
Proof. repeat split. Qed.

Example sample_groups :
  compute_results make_bytes_group sample_compare
  = Ok [VInt 12; VInt 8; VInt 4; VFloat (2 # 3)]
  /\ compute_results make_functions_group sample_compare
     = Ok [VInt 5; VInt 3; VInt 2; VFloat (3 # 5)]
  /\ compute_results
       (make_varnodes_group "varnodes" "Varnode recovery" false)
       sample_compare
     = Ok [VInt 2; VInt 0; VInt 1; VInt 0; VInt 0; VInt 1; VFloat (5 # 8)]
  /\ List.length (@make_metrics _ _ StoredCompare _ _) = 14%nat
  /\ map get_name (@make_metrics _ _ StoredCompare _ _)
     = ["bytes"; "functions"; "varnodes"; "varnodes_metatype_INT";
        "varnodes_metatype_FLOAT"; "varnodes_metatype_POINTER";
        "varnodes_metatype_ARRAY"; "varnodes_metatype_STRUCT";
        "varnodes_metatype_UNION"; "varnodes_decomposed";
        "varnodes_decomposed_metatype_INT";
        "varnodes_decomposed_metatype_FLOAT";
        "varnodes_decomposed_metatype_POINTER"; "array_comparisons"]%string.
Proof. repeat split. Qed.

Ltac in_records H :=
  simpl in H; repeat (destruct H as [<- | H]; [| try contradiction]).

Lemma bytes_found_clamp_scenarios :
  bytes_found sample_compare = 8%Z
  /\ bytes_found overcounted_compare = 8%Z
  /\ bytes_missed overcounted_compare = 0%Z
  /\ bytes_recovery_fraction overcounted_compare = Ok 1.
Proof.
  pose proof (bytes_found_clamp sample_compare) as Hsample.
  pose proof (bytes_found_clamp overcounted_compare) as Hover.
  cbv zeta in Hsample, Hover.
  destruct Hsample as [Hsample _]. destruct Hover as [_ Hover].
  assert (Hle : (8 <= 12)%Z) by lia.
  assert (Hge : (8 <= 12)%Z) by lia.
  assert (Hpos : (0 < 8)%Z) by lia.
  destruct (Hover Hge) as (Hfound & Hmissed & Hfraction).
  split; [exact (Hsample Hle) |].
  split; [exact Hfound |]. split; [exact Hmissed | exact (Hfraction Hpos)].
Defined.

Lemma functions_recovery_fraction_scenarios :
  functions_recovery_fraction empty_compare = Raise ZeroDivisionError
  /\ exists q,
       functions_recovery_fraction sample_compare = Ok q /\ 0 <= q /\ q <= 1.
Proof.
  destruct (functions_recovery_fraction_spec empty_compare) as [[_ Hnone] _].
  destruct (functions_recovery_fraction_spec sample_compare) as [_ Hsome].
  split; [apply Hnone; reflexivity |].
  apply Hsome; [discriminate | simpl; lia].
Defined.

Lemma match_levels_count_sample :
  List.length
    (_varnode_compare_records_match_levels
       (select_comparable_varnode_compare_records sample_compare false)
       [1; 4]%Z)
  = 2%nat.
Proof.
  rewrite match_levels_count; [reflexivity |].
  repeat constructor; simpl; intuition lia.
Defined.

Lemma matched_at_above_level_narrows_sample :
  let records :=
    select_comparable_varnode_compare_records sample_compare false in
  (List.length (_varnode_compare_records_matched_at_above_level records 3)
   <= List.length (_varnode_compare_records_matched_at_above_level records 1))%nat.
Proof.
  intros records.
  assert (Hle : (1 <= 3)%Z) by lia.
  exact (proj2 (matched_at_above_level_narrows records 1 3 Hle)).
Defined.

Lemma matched_at_above_level_counts_sample :
  List.length
    (varnode_compare_records_matched_at_above_level sample_compare 2 false)
  = 1%nat.
Proof.
  rewrite matched_at_above_level_counts; [reflexivity |].
  intros record Hin. in_records Hin; vm_compute; auto 10.
Defined.

Lemma missed_or_matched_above_no_match_sample :
  (List.length (varnodes_missed sample_compare false)
   + List.length
       (varnode_compare_records_matched_at_above_level
          sample_compare (VarnodeCompareLevel_NO_MATCH + 1) false))%nat
  = 2%nat.
Proof.
  rewrite missed_or_matched_above_no_match; [reflexivity |].
  intros record Hin. in_records Hin; simpl; lia.
Defined.


Lemma avg_compare_level_constant_overcounted :
  _varnodes_avg_compare_level
    (select_comparable_varnode_compare_records overcounted_compare false)
  = Ok (Some (inject_Z 1)).
Proof.
  apply avg_compare_level_constant; [discriminate |].
  intros record Hin. in_records Hin; reflexivity.
Defined.

Lemma avg_compare_score_unit_interval_sample :
  exists s,
    varnodes_avg_compare_score sample_compare false = Ok s
    /\ (s = None
        <-> select_comparable_varnode_compare_records sample_compare false
            = [])
    /\ (forall q, s = Some q -> 0 <= q /\ q <= 1).
Proof.
  refine (proj1 (avg_compare_score_unit_interval sample_compare false _ _)).
  - repeat split; reflexivity.
  - intros record Hin. in_records Hin; vm_compute; auto 10.
Defined.

Lemma varnodes_truth_metatype_counts_sample :
  list_sum
    (map (fun compare_level =>
            List.length
              (varnode_compare_records_matched_at_level_metatype
                 sample_compare 0 compare_level false))
         (range_elems VarnodeCompareLevel_range))
  = List.length (varnodes_truth_metatype sample_compare 0 false).
Proof.
  refine (proj2 (varnodes_truth_metatype_counts sample_compare 0 false) _).
  intros record Hin. in_records Hin; vm_compute; auto 10.
Defined.

Lemma varnodes_truth_metatype_partition_array :
  list_sum
    (map (fun metatype =>
            List.length (varnodes_truth_metatype array_compare metatype false))
         [MetaType_INT; MetaType_FLOAT; MetaType_POINTER; MetaType_ARRAY;
          MetaType_STRUCT; MetaType_UNION])
  = List.length (varnodes_truth array_compare false).
Proof.
  apply varnodes_truth_metatype_partition.
  - repeat constructor; simpl; intuition lia.
  - intros record Hin. in_records Hin; vm_compute; auto 10.
Defined.

Lemma array_inferred_fraction_scenarios :
  array_inferred_fraction empty_compare = Raise ZeroDivisionError
  /\ exists q, array_inferred_fraction array_compare = Ok q
               /\ 0 <= q /\ q <= 1.
Proof.
  destruct (array_inferred_fraction_spec empty_compare) as (_ & [_ Hnone] & _).
  destruct (array_inferred_fraction_spec array_compare) as (_ & _ & Hsome).
  split; [apply Hnone; reflexivity | apply Hsome; discriminate].
Defined.




Lemma _array_dimension_match_ratio_array_pair :
  _array_dimension_match_ratio [array_pair] = Ok (Some 1).
Proof.
  destruct (_array_dimension_match_ratio_spec [array_pair])
    as (r & Hr & _ & _ & Hone).
  rewrite Hr. f_equal. apply Hone; [discriminate |].
  intros cmp Hin. in_records Hin. reflexivity.
Defined.

Lemma _array_subtype_match_ratio_scenarios :
  _array_subtype_match_ratio [] DataTypeCompareLevel_MATCH
  = Raise ZeroDivisionError
  /\ exists q,
       _array_subtype_match_ratio [array_pair] DataTypeCompareLevel_MATCH
       = Ok q /\ 0 <= q /\ q <= 1.
Proof.
  destruct (_array_subtype_match_ratio_spec [] DataTypeCompareLevel_MATCH)
    as ([_ Hnone] & _).
  destruct (_array_subtype_match_ratio_spec
              [array_pair] DataTypeCompareLevel_MATCH) as (_ & Hsome & _).
  split; [apply Hnone; reflexivity | apply Hsome; discriminate].
Defined.

Lemma compute_results_values_sample :
  List.length [VInt 12; VInt 8; VInt 4; VFloat (2 # 3)]
  = List.length (get_metrics (@make_bytes_group _ StoredCompare _))
  /\ Forall2 (fun metric v => Metric_call metric sample_compare = Ok v)
             (get_metrics make_bytes_group)
             [VInt 12; VInt 8; VInt 4; VFloat (2 # 3)].
Proof.
  apply (proj2 (compute_results_values make_bytes_group sample_compare)).
  reflexivity.
Defined.



End MoreScenarioInstances.
